(** * Whiley-to-C runtime library (wycc/clib): the conversions
      [wycc__toUnsignedByte] and [wycc__toUnsignedInt]

    A shallow embedding of the two translation units
    [wycc__toUnsignedByte.c] and [wycc__toUnsignedInt.c]: the boxed
    objects live in a heap indexed by addresses, the routines run in a
    state monad over the process state whose results are either a
    returned value or the way the process ended, and the per-module
    initializer records form a linked chain in static storage. *)

From Stdlib Require Import ZArith String List Lia.
From stdpp Require Import base gmap strings list fin_maps infinite.

Local Open Scope string_scope.
Local Open Scope list_scope.
Local Open Scope Z_scope.

(** ** Data model *)

(** [wycc_obj]: the boxed value.  The routines read the two fields
    [typ] (the runtime type tag, an [int]) and [ptr] (the payload, read
    through the cast [(long) itm->ptr]). *)
Record wycc_obj := Wycc_obj { typ : Z; ptr : Z }.

(** Modelled from the spec: the constants of [wycc_lib.h], which is not
    part of the sources at hand.  The type tags [Wy_Int], [Wy_Char] and
    [Wy_Byte] are integers whose values are left open, and
    [wycc_obj_consistent] is the rule by which the sanity check decides
    that an object is internally consistent. *)
Class wycc_lib_h := Wycc_lib_h {
  Wy_Int : Z;
  Wy_Char : Z;
  Wy_Byte : Z;
  wycc_obj_consistent : wycc_obj -> bool
}.

(** Pointers to functions, one constructor per function of the two
    translation units whose address is taken. *)
Inductive native_fn :=
| Fn_wycc__toUnsignedByte
| Fn_wycc__toUnsignedInt.

Inductive init_fn :=
| Fn_toUnsignedByte__initor_b
| Fn_toUnsignedByte__initor_d
| Fn_toUnsignedInt__initor_b
| Fn_toUnsignedInt__initor_d.

(** [wycc_initor]: the initializer record.  [nxt] points to another
    record or is NULL ([None]); a record in static storage is named by
    the translation unit that owns it. *)
Record wycc_initor := Wycc_initor {
  nxt : option string;
  functionr : option init_fn;
  functionq : option init_fn
}.

(** Static storage is zero-initialised. *)
Definition zero_initor : wycc_initor :=
  {| nxt := None; functionr := None; functionq := None |}.

(** What is written to [stderr]. *)
Inductive diagnostic :=
| SanityDiag (callerLabel : string)
| Fprintf (format : string) (args : list Z).

(** The actions of a run, in the order in which they happen. *)
Inductive event :=
| EvSanityCheck (handle : Z) (callerLabel : string)
| EvLoadTyp (handle : Z)
| EvLoadPtr (handle : Z)
| EvAlloc (handle : Z)
| EvStderr (d : diagnostic)
| EvRegisterCallback (record : string) (f : init_fn)
| EvQueryCallback (record : string) (f : init_fn).

(** The process state. *)
Record world := World {
  heap : gmap Z wycc_obj;
  registry : gmap (string * string) native_fn;
  wycc_init_chain : option string;
  initors : gmap string wycc_initor;
  trace : list event
}.

Definition log (e : event) (w : world) : world :=
  {| heap := heap w; registry := registry w;
     wycc_init_chain := wycc_init_chain w; initors := initors w;
     trace := trace w ++ [e] |}.

(** The state after the actions [evs] have been recorded. *)
Definition add_trace (evs : list event) (w : world) : world :=
  {| heap := heap w; registry := registry w;
     wycc_init_chain := wycc_init_chain w; initors := initors w;
     trace := trace w ++ evs |}.

Definition set_heap (h : gmap Z wycc_obj) (w : world) : world :=
  {| heap := h; registry := registry w;
     wycc_init_chain := wycc_init_chain w; initors := initors w;
     trace := trace w |}.

Definition set_registry (r : gmap (string * string) native_fn) (w : world) : world :=
  {| heap := heap w; registry := r;
     wycc_init_chain := wycc_init_chain w; initors := initors w;
     trace := trace w |}.

Definition set_init_chain (p : option string) (w : world) : world :=
  {| heap := heap w; registry := registry w;
     wycc_init_chain := p; initors := initors w;
     trace := trace w |}.

Definition set_initors (m : gmap string wycc_initor) (w : world) : world :=
  {| heap := heap w; registry := registry w;
     wycc_init_chain := wycc_init_chain w; initors := m;
     trace := trace w |}.

(** ** The monad of the runtime *)

(** How a process ends when it does not return: [exit (status)], the
    abort of the sanity check, the fatal failure of the value factory,
    or a memory fault. *)
Inductive termination :=
| Exit (status : Z)
| SanityAbort
| FactoryFatal
| Segfault.

Inductive outcome (A : Type) :=
| Returned (a : A)
| Terminated (t : termination)
| OutOfFuel.
Arguments Returned {A} a.
Arguments Terminated {A} t.
Arguments OutOfFuel {A}.

Definition M (A : Type) : Type := world -> outcome A * world.

Definition ret {A} (a : A) : M A := fun w => (Returned a, w).

Definition bind {A B} (c : M A) (k : A -> M B) : M B :=
  fun w =>
    match c w with
    | (Returned a, w') => k a w'
    | (Terminated t, w') => (Terminated t, w')
    | (OutOfFuel, w') => (OutOfFuel, w')
    end.

Declare Scope runtime_scope.
Delimit Scope runtime_scope with rt.
Bind Scope runtime_scope with M.
Notation "x <- c1 ;; c2" := (bind c1 (fun x => c2))
  (at level 100, c1 at next level, c2 at level 200, right associativity) : runtime_scope.
Notation "c1 ;; c2" := (bind c1 (fun _ => c2))
  (at level 100, c2 at level 200, right associativity) : runtime_scope.
Local Open Scope runtime_scope.

Definition emit (e : event) : M unit := fun w => (Returned tt, log e w).

Definition terminate {A} (t : termination) : M A := fun w => (Terminated t, w).

(** [exit(status)] of the C library: the process ends. *)
Definition exit {A} (status : Z) : M A := terminate (Exit status).

(** [fprintf(stderr, format, args...)]. *)
Definition fprintf_stderr (format : string) (args : list Z) : M unit :=
  emit (EvStderr (Fprintf format args)).

(** [itm->typ] and [(long) itm->ptr]: a read through a pointer that
    does not point to an object is a memory fault. *)
Definition load_typ (itm : Z) : M Z :=
  fun w =>
    match heap w !! itm with
    | Some o => (Returned (typ o), log (EvLoadTyp itm) w)
    | None => (Terminated Segfault, w)
    end.

Definition load_ptr (itm : Z) : M Z :=
  fun w =>
    match heap w !! itm with
    | Some o => (Returned (ptr o), log (EvLoadPtr itm) w)
    | None => (Terminated Segfault, w)
    end.

(** The newline character of the C string literals. *)
Definition LF : string := String (Ascii.ascii_of_nat 10) EmptyString.

Section Runtime.
Context `{Hdr : wycc_lib_h}.

(** Modelled from the spec: the condition that the sanity check tests.
    A handle is sane when it is not NULL, points to an object, and
    that object is internally consistent. *)
Definition handle_sane (w : world) (itm : Z) : bool :=
  negb (itm =? 0) &&
  match heap w !! itm with
  | Some o => wycc_obj_consistent o
  | None => false
  end.

(** Modelled from the spec: the macro [WY_OBJ_SANE] of [common.h],
    which is not part of the sources at hand.  The check fails
    fatally, aborting the process, if the handle is null or otherwise
    structurally invalid, and cites the caller's label in the
    diagnostic. *)
Definition WY_OBJ_SANE (itm : Z) (callerLabel : string) : M unit :=
  emit (EvSanityCheck itm callerLabel) ;;
  fun w =>
    if handle_sane w itm then (Returned tt, w)
    else (emit (EvStderr (SanityDiag callerLabel)) ;; terminate SanityAbort) w.

(** Modelled from the spec: the macro [WY_PANIC] of [common.h], which
    is not part of the sources at hand.  It reports the diagnostic;
    the process is ended by the [exit] that follows it in the
    sources. *)
Definition WY_PANIC (format : string) (arg : Z) : M unit :=
  fprintf_stderr format [arg].

(** Modelled from the spec: the allocation made by the value factory,
    of a new object at an address that is not NULL and not in use. *)
Definition alloc (o : wycc_obj) : M Z :=
  fun w =>
    let h := fresh ({[0]} ∪ dom (heap w)) in
    (Returned h, log (EvAlloc h) (set_heap (<[h := o]> (heap w)) w)).

(** Modelled from the spec: [wycc_box_long] of [box.h], the value
    factory for integers, which is not part of the sources at hand.
    No range restriction is applied: the value is passed through as it
    is; the only side effect is the allocation of the returned handle,
    which is never null. *)
Definition wycc_box_long (val : Z) : M Z :=
  alloc {| typ := Wy_Int; ptr := val |}.

(** Modelled from the spec: [wycc_box_byte] of [box.h], the value
    factory for bytes, which is not part of the sources at hand.  The
    raw value must satisfy 0 <= rawValue <= 255; a violation is a
    fatal precondition failure of the factory.  Otherwise the only
    side effect is the allocation of the returned handle, which is
    never null. *)
Definition wycc_box_byte (val : Z) : M Z :=
  if (0 <=? val) && (val <=? 255)
  then alloc {| typ := Wy_Byte; ptr := val |}
  else terminate FactoryFatal.

(** Modelled from the spec: [wycc_register_routine], the registration
    call of the native routine registry, which is not part of the
    sources at hand.  It inserts or overwrites the entry keyed by
    (name, signature descriptor); it returns nothing and cannot
    fail. *)
Definition wycc_register_routine (name sig : string) (fn : native_fn) : M unit :=
  fun w => (Returned tt, set_registry (<[(name, sig) := fn]> (registry w)) w).

(** Modelled from the spec: the lookup call of the native routine
    registry, which is not part of the sources at hand.  It returns
    the implementation registered for (name, signature descriptor),
    or "not found" ([None]); descriptors are compared for equality
    only. *)
Definition wycc_lookup_routine (name sig : string) (w : world) : option native_fn :=
  registry w !! (name, sig).

(** Reads and writes of the chain head and of the records in static
    storage. *)
Definition load_init_chain : M (option string) :=
  fun w => (Returned (wycc_init_chain w), w).

Definition store_init_chain (p : option string) : M unit :=
  fun w => (Returned tt, set_init_chain p w).

Definition static_initor (w : world) (c : string) : wycc_initor :=
  default zero_initor (initors w !! c).

Definition store_nxt (c : string) (p : option string) : M unit :=
  fun w =>
    let r := static_initor w c in
    (Returned tt,
     set_initors (<[c := {| nxt := p; functionr := functionr r;
                            functionq := functionq r |}]> (initors w)) w).

Definition store_functionr (c : string) (f : init_fn) : M unit :=
  fun w =>
    let r := static_initor w c in
    (Returned tt,
     set_initors (<[c := {| nxt := nxt r; functionr := Some f;
                            functionq := functionq r |}]> (initors w)) w).

Definition store_functionq (c : string) (f : init_fn) : M unit :=
  fun w =>
    let r := static_initor w c in
    (Returned tt,
     set_initors (<[c := {| nxt := nxt r; functionr := functionr r;
                            functionq := Some f |}]> (initors w)) w).
End Runtime.

(** ** wycc__toUnsignedByte.c *)
Module ToUnsignedByte.
Section Unit.
Context `{Hdr : wycc_lib_h}.

Definition wycc__toUnsignedByte (itm : Z) : M Z :=
  WY_OBJ_SANE itm "wycc__toUnsignedByte" ;;
  val <- (t1 <- load_typ itm ;;
          if t1 =? Wy_Int then load_ptr itm
          else
            t2 <- load_typ itm ;;
            if t2 =? Wy_Char then load_ptr itm
            else
              t3 <- load_typ itm ;;
              if t3 =? Wy_Byte then load_ptr itm
              else
                t4 <- load_typ itm ;;
                WY_PANIC ("Help needed in wycc__toUnsignedByte for type %d" ++ LF)%string t4 ;;
                exit (-3)) ;;
  (if val <? 0
   then fprintf_stderr ("precondition not satisfied" ++ LF)%string [] ;; exit (-4)
   else ret tt) ;;
  (if val >? 255
   then fprintf_stderr ("precondition not satisfied" ++ LF)%string [] ;; exit (-4)
   else ret tt) ;;
  wycc_box_byte val.

Definition __initor_b : M unit :=
  wycc_register_routine "toUnsignedByte" "[^d,v,i]" Fn_wycc__toUnsignedByte ;;
  ret tt.

Definition __initor_d : M unit := ret tt.

(** The static record [__initor_c] of this translation unit. *)
Definition __initor_c : string := "wycc__toUnsignedByte.c".

Definition __initor_a : M unit :=
  head <- load_init_chain ;;
  store_nxt __initor_c head ;;
  store_functionr __initor_c Fn_toUnsignedByte__initor_b ;;
  store_functionq __initor_c Fn_toUnsignedByte__initor_d ;;
  store_init_chain (Some __initor_c) ;;
  ret tt.
End Unit.
End ToUnsignedByte.

(** ** wycc__toUnsignedInt.c *)
Module ToUnsignedInt.
Section Unit.
Context `{Hdr : wycc_lib_h}.

Definition wycc__toUnsignedInt (itm : Z) : M Z :=
  WY_OBJ_SANE itm "wycc__toUnsignedInt" ;;
  val <- (t1 <- load_typ itm ;;
          if t1 =? Wy_Int then load_ptr itm
          else
            t2 <- load_typ itm ;;
            if t2 =? Wy_Char then load_ptr itm
            else
              t3 <- load_typ itm ;;
              if t3 =? Wy_Byte then load_ptr itm
              else
                t4 <- load_typ itm ;;
                WY_PANIC ("Help needed in wycc__toUnsignedByte for type %d" ++ LF)%string t4 ;;
                exit (-3)) ;;
  wycc_box_long val.

Definition __initor_b : M unit :=
  wycc_register_routine "toUnsignedInt" "[^i,v,d]" Fn_wycc__toUnsignedInt ;;
  ret tt.

Definition __initor_d : M unit := ret tt.

(** The static record [__initor_c] of this translation unit. *)
Definition __initor_c : string := "wycc__toUnsignedInt.c".

Definition __initor_a : M unit :=
  head <- load_init_chain ;;
  store_nxt __initor_c head ;;
  store_functionr __initor_c Fn_toUnsignedInt__initor_b ;;
  store_functionq __initor_c Fn_toUnsignedInt__initor_d ;;
  store_init_chain (Some __initor_c) ;;
  ret tt.
End Unit.
End ToUnsignedInt.

(** ** Calls through function pointers, and the start of the process *)
Section Startup.
Context `{Hdr : wycc_lib_h}.

Definition call_init_fn (f : init_fn) : M unit :=
  match f with
  | Fn_toUnsignedByte__initor_b => ToUnsignedByte.__initor_b
  | Fn_toUnsignedByte__initor_d => ToUnsignedByte.__initor_d
  | Fn_toUnsignedInt__initor_b => ToUnsignedInt.__initor_b
  | Fn_toUnsignedInt__initor_d => ToUnsignedInt.__initor_d
  end.

Definition call_native (f : native_fn) (itm : Z) : M Z :=
  match f with
  | Fn_wycc__toUnsignedByte => ToUnsignedByte.wycc__toUnsignedByte itm
  | Fn_wycc__toUnsignedInt => ToUnsignedInt.wycc__toUnsignedInt itm
  end.

(** The body shared by the load-time constructors [__initor_a] of the
    translation units: link the record [c], with callbacks [b] and
    [d], in front of the chain. *)
Definition link_initor (c : string) (b d : init_fn) : M unit :=
  head <- load_init_chain ;;
  store_nxt c head ;;
  store_functionr c b ;;
  store_functionq c d ;;
  store_init_chain (Some c) ;;
  ret tt.

(** The records reachable from a pointer by following [nxt], each
    with its register-callback; there is no result when the walk does
    not end within [fuel] steps or meets a NULL callback. *)
Fixpoint chain_from (fuel : nat) (m : gmap string wycc_initor)
    (p : option string) {struct fuel} : option (list (string * init_fn)) :=
  match p with
  | None => Some []
  | Some c =>
      match fuel with
      | O => None
      | S fuel' =>
          match functionr (default zero_initor (m !! c)) with
          | None => None
          | Some f =>
              cons (c, f) <$>
                chain_from fuel' m (nxt (default zero_initor (m !! c)))
          end
      end
  end.

Definition chain_records (fuel : nat) (w : world) : option (list (string * init_fn)) :=
  chain_from fuel (initors w) (wycc_init_chain w).

Definition load_nxt (c : string) : M (option string) :=
  fun w => (Returned (nxt (static_initor w c)), w).

Definition load_functionr (c : string) : M (option init_fn) :=
  fun w => (Returned (functionr (static_initor w c)), w).

Definition load_functionq (c : string) : M (option init_fn) :=
  fun w => (Returned (functionq (static_initor w c)), w).

Definition out_of_fuel {A} : M A := fun w => (OutOfFuel, w).

(** Modelled from the spec: the startup driver, which is not part of
    the sources at hand.  It walks the chain from the most recently
    linked record to the earliest and invokes each record's
    register-callback exactly once; a second pass invokes each
    record's query-callback.  A call through a NULL function pointer
    is a memory fault. *)
Fixpoint walk_register (fuel : nat) (p : option string) {struct fuel} : M unit :=
  match p with
  | None => ret tt
  | Some c =>
      match fuel with
      | O => out_of_fuel
      | S fuel' =>
          fp <- load_functionr c ;;
          match fp with
          | None => terminate Segfault
          | Some f =>
              emit (EvRegisterCallback c f) ;;
              call_init_fn f ;;
              n <- load_nxt c ;;
              walk_register fuel' n
          end
      end
  end.

(** Modelled from the spec: the second pass of the startup driver, over
    the query-callbacks. *)
Fixpoint walk_query (fuel : nat) (p : option string) {struct fuel} : M unit :=
  match p with
  | None => ret tt
  | Some c =>
      match fuel with
      | O => out_of_fuel
      | S fuel' =>
          fp <- load_functionq c ;;
          match fp with
          | None => terminate Segfault
          | Some f =>
              emit (EvQueryCallback c f) ;;
              call_init_fn f ;;
              n <- load_nxt c ;;
              walk_query fuel' n
          end
      end
  end.

(** Modelled from the spec: the two passes of the startup driver start
    at the head of the chain. *)
Definition run_register_pass (fuel : nat) : M unit :=
  p <- load_init_chain ;; walk_register fuel p.

Definition run_query_pass (fuel : nat) : M unit :=
  p <- load_init_chain ;; walk_query fuel p.
End Startup.

(** The register-callbacks that a trace shows, in the order of their
    invocation. *)
Definition register_invocations (tr : list event) : list (string * init_fn) :=
  omap (fun e => match e with
                 | EvRegisterCallback c f => Some (c, f)
                 | _ => None
                 end) tr.

(** What a routine wrote to [stderr]. *)
Definition stderr_of (tr : list event) : list diagnostic :=
  omap (fun e => match e with EvStderr d => Some d | _ => None end) tr.

(** The exit status that the parent of the process sees after
    [exit (status)]: the low eight bits of [status]. *)
Definition exit_status (status : Z) : Z := Z.land status 255.

(** A termination that a supervisor of the process takes for success. *)
Definition reports_success (t : termination) : bool :=
  match t with
  | Exit status => exit_status status =? 0
  | SanityAbort | FactoryFatal | Segfault => false
  end.

(** The tags accepted by the two conversions. *)
Definition accepted_tag `{Hdr : wycc_lib_h} (t : Z) : bool :=
  (t =? Wy_Int) || (t =? Wy_Char) || (t =? Wy_Byte).

(** The reads of [itm->typ] that the chain of comparisons makes for an
    object of tag [t]. *)
Definition dispatch_reads `{Hdr : wycc_lib_h} (itm t : Z) : list event :=
  if t =? Wy_Int then [EvLoadTyp itm]
  else if t =? Wy_Char then [EvLoadTyp itm; EvLoadTyp itm]
  else if t =? Wy_Byte then [EvLoadTyp itm; EvLoadTyp itm; EvLoadTyp itm]
  else [EvLoadTyp itm; EvLoadTyp itm; EvLoadTyp itm; EvLoadTyp itm].

(** The two failure kinds of a conversion, as conditions on its input. *)
Definition unsupported_type_violation `{Hdr : wycc_lib_h} (w : world) (itm : Z) : Prop :=
  handle_sane w itm = true /\
  exists o, heap w !! itm = Some o /\ accepted_tag (typ o) = false.

Definition range_violation `{Hdr : wycc_lib_h} (w : world) (itm : Z) : Prop :=
  handle_sane w itm = true /\
  exists o, heap w !! itm = Some o /\ accepted_tag (typ o) = true /\
            ~ (0 <= ptr o <= 255).

(** What the callbacks of the two translation units do to the registry. *)
Definition init_fn_effect (f : init_fn)
    (reg : gmap (string * string) native_fn) : gmap (string * string) native_fn :=
  match f with
  | Fn_toUnsignedByte__initor_b =>
      <[("toUnsignedByte", "[^d,v,i]") := Fn_wycc__toUnsignedByte]> reg
  | Fn_toUnsignedInt__initor_b =>
      <[("toUnsignedInt", "[^i,v,d]") := Fn_wycc__toUnsignedInt]> reg
  | Fn_toUnsignedByte__initor_d | Fn_toUnsignedInt__initor_d => reg
  end.

(** A sequence of registrations, performed in order. *)
Fixpoint register_all (ops : list (string * string * native_fn)) : M unit :=
  match ops with
  | [] => ret tt
  | (name, sig, fn) :: rest =>
      wycc_register_routine name sig fn ;; register_all rest
  end.

(** The invariant of boxed bytes: every object of tag [Wy_Byte] holds a
    payload between 0 and 255. *)
Definition byte_invariant `{Hdr : wycc_lib_h} (w : world) : Prop :=
  forall h o, heap w !! h = Some o -> typ o = Wy_Byte -> 0 <= ptr o <= 255.

(** The query-callbacks that a trace shows, in the order of their
    invocation. *)
Definition query_invocations (tr : list event) : list (string * init_fn) :=
  omap (fun e => match e with
                 | EvQueryCallback c f => Some (c, f)
                 | _ => None
                 end) tr.

(** ** Sample data *)

(** One assignment of the constants of the header, and small process
    states, on which the definitions above can be run. *)
Definition sample_header : wycc_lib_h :=
  {| Wy_Int := 2; Wy_Char := 3; Wy_Byte := 4;
     wycc_obj_consistent := fun o => 0 <=? typ o |}.

Definition empty_world : world :=
  {| heap := ∅; registry := ∅; wycc_init_chain := None; initors := ∅;
     trace := [] |}.

Definition world_with (itm : Z) (o : wycc_obj) : world :=
  set_heap {[ itm := o ]} empty_world.

(** One boxed value at address 16: the integers 42, 300 and -5, the
    byte 7, and a value whose tag (7) is none of the three accepted
    ones. *)
Definition sample_int_42 : world := world_with 16 {| typ := 2; ptr := 42 |}.
Definition sample_int_300 : world := world_with 16 {| typ := 2; ptr := 300 |}.
Definition sample_int_neg5 : world := world_with 16 {| typ := 2; ptr := -5 |}.
Definition sample_byte_7 : world := world_with 16 {| typ := 4; ptr := 7 |}.
Definition sample_other_tag : world := world_with 16 {| typ := 7; ptr := 1 |}.

(** Two boxed values of equal payload: the integer 42 at address 16 and
    the character 42 at address 20. *)
Definition sample_int_char_42 : world :=
  set_heap (<[16 := {| typ := 2; ptr := 42 |}]> {[ 20 := {| typ := 3; ptr := 42 |} ]})
    empty_world.

(** ** Running the primitives *)
Section Primitives.
Context `{Hdr : wycc_lib_h}.

Lemma log_add_trace e evs w : log e (add_trace evs w) = add_trace (evs ++ [e]) w.
Proof. unfold log, add_trace; cbn. by rewrite <- (assoc_L (++)). Qed.

Lemma log_is_add_trace e w : log e w = add_trace [e] w.
Proof. reflexivity. Qed.

Lemma bind_returned {A B} (c : M A) (k : A -> M B) w a w' :
  c w = (Returned a, w') -> bind c k w = k a w'.
Proof. unfold bind; by intros ->. Qed.

Lemma bind_terminated {A B} (c : M A) (k : A -> M B) w t w' :
  c w = (Terminated t, w') -> bind c k w = (Terminated t, w').
Proof. unfold bind; by intros ->. Qed.

Lemma handle_sane_lookup w itm :
  handle_sane w itm = true ->
  itm <> 0 /\ exists o, heap w !! itm = Some o /\ wycc_obj_consistent o = true.
Proof.
  unfold handle_sane; intros [Hnz Hobj]%andb_prop; split.
  - apply negb_true_iff, Z.eqb_neq in Hnz; exact Hnz.
  - destruct (heap w !! itm) as [o|]; [eauto | discriminate].
Qed.

Lemma handle_sane_intro w itm o :
  itm <> 0 -> heap w !! itm = Some o -> wycc_obj_consistent o = true ->
  handle_sane w itm = true.
Proof.
  intros Hnz Ho Hc; unfold handle_sane; rewrite Ho, Hc.
  apply Z.eqb_neq in Hnz; by rewrite Hnz.
Qed.

Lemma WY_OBJ_SANE_sane w itm label :
  handle_sane w itm = true ->
  WY_OBJ_SANE itm label w = (Returned tt, add_trace [EvSanityCheck itm label] w).
Proof.
  intros Hs; unfold WY_OBJ_SANE, bind, emit; cbv beta iota.
  change (handle_sane (log (EvSanityCheck itm label) w) itm)
    with (handle_sane w itm).
  by rewrite Hs.
Qed.

Lemma WY_OBJ_SANE_insane w itm label :
  handle_sane w itm = false ->
  WY_OBJ_SANE itm label w =
    (Terminated SanityAbort,
     add_trace [EvSanityCheck itm label; EvStderr (SanityDiag label)] w).
Proof.
  intros Hs; unfold WY_OBJ_SANE, bind, emit, terminate; cbv beta iota.
  change (handle_sane (log (EvSanityCheck itm label) w) itm)
    with (handle_sane w itm).
  rewrite Hs; cbv beta iota.
  by rewrite (log_is_add_trace _ w), log_add_trace.
Qed.

Lemma load_typ_run w itm o evs :
  heap w !! itm = Some o ->
  load_typ itm (add_trace evs w) =
    (Returned (typ o), add_trace (evs ++ [EvLoadTyp itm]) w).
Proof.
  intros Ho; unfold load_typ; cbn. by rewrite Ho, log_add_trace.
Qed.

Lemma load_ptr_run w itm o evs :
  heap w !! itm = Some o ->
  load_ptr itm (add_trace evs w) =
    (Returned (ptr o), add_trace (evs ++ [EvLoadPtr itm]) w).
Proof.
  intros Ho; unfold load_ptr; cbn. by rewrite Ho, log_add_trace.
Qed.

Lemma fprintf_stderr_run w format args evs :
  fprintf_stderr format args (add_trace evs w) =
    (Returned tt, add_trace (evs ++ [EvStderr (Fprintf format args)]) w).
Proof. unfold fprintf_stderr, emit. by rewrite log_add_trace. Qed.

(** The new handle is not NULL and was not in use. *)
Lemma alloc_fresh (m : gmap Z wycc_obj) :
  fresh ({[0]} ∪ dom m) <> 0 /\ m !! fresh ({[0]} ∪ dom m) = None.
Proof.
  pose proof (is_fresh ({[0]} ∪ dom m)) as Hf.
  split.
  - intros Heq. apply Hf. rewrite Heq. set_solver.
  - apply not_elem_of_dom. set_solver.
Qed.
End Primitives.

(** ** Running the conversions *)
Section Conversions.
Context `{Hdr : wycc_lib_h}.

Ltac run_loads Ho :=
  repeat first
    [ rewrite (load_typ_run _ _ _ _ Ho)
    | rewrite (load_ptr_run _ _ _ _ Ho)
    | rewrite fprintf_stderr_run ];
  cbv beta iota.

(** The run of [wycc__toUnsignedByte] on a sane handle, case by case. *)
Lemma toUnsignedByte_run w itm o :
  handle_sane w itm = true -> heap w !! itm = Some o ->
  ToUnsignedByte.wycc__toUnsignedByte itm w =
    let evs := EvSanityCheck itm "wycc__toUnsignedByte" :: dispatch_reads itm (typ o) in
    if accepted_tag (typ o) then
      if (0 <=? ptr o) && (ptr o <=? 255) then
        alloc {| typ := Wy_Byte; ptr := ptr o |} (add_trace (evs ++ [EvLoadPtr itm]) w)
      else
        (Terminated (Exit (-4)),
         add_trace (evs ++ [EvLoadPtr itm;
                            EvStderr (Fprintf ("precondition not satisfied" ++ LF)%string [])]) w)
    else
      (Terminated (Exit (-3)),
       add_trace (evs ++ [EvStderr (Fprintf
                    ("Help needed in wycc__toUnsignedByte for type %d" ++ LF)%string
                    [typ o])]) w).
Proof.
  intros Hs Ho.
  unfold ToUnsignedByte.wycc__toUnsignedByte.
  rewrite (bind_returned _ _ _ _ _ (WY_OBJ_SANE_sane _ _ _ Hs)).
  unfold bind, WY_PANIC, exit, terminate, ret, wycc_box_byte, accepted_tag, dispatch_reads.
  run_loads Ho.
  repeat (match goal with
          | |- context [if typ o =? ?b then _ else _] =>
              destruct (typ o =? b) eqn:?
          end; run_loads Ho); cbn [orb]; try reflexivity;
  destruct (Z.ltb_spec (ptr o) 0); run_loads Ho;
  try (destruct (Z.leb_spec 0 (ptr o)); [lia | reflexivity]);
  rewrite Z.gtb_ltb; destruct (Z.ltb_spec 255 (ptr o)); run_loads Ho;
  destruct (Z.leb_spec 0 (ptr o)); try lia;
  destruct (Z.leb_spec (ptr o) 255); try lia; reflexivity.
Qed.

(** The run of [wycc__toUnsignedInt] on a sane handle, case by case. *)
Lemma toUnsignedInt_run w itm o :
  handle_sane w itm = true -> heap w !! itm = Some o ->
  ToUnsignedInt.wycc__toUnsignedInt itm w =
    let evs := EvSanityCheck itm "wycc__toUnsignedInt" :: dispatch_reads itm (typ o) in
    if accepted_tag (typ o) then
      alloc {| typ := Wy_Int; ptr := ptr o |} (add_trace (evs ++ [EvLoadPtr itm]) w)
    else
      (Terminated (Exit (-3)),
       add_trace (evs ++ [EvStderr (Fprintf
                    ("Help needed in wycc__toUnsignedByte for type %d" ++ LF)%string
                    [typ o])]) w).
Proof.
  intros Hs Ho.
  unfold ToUnsignedInt.wycc__toUnsignedInt.
  rewrite (bind_returned _ _ _ _ _ (WY_OBJ_SANE_sane _ _ _ Hs)).
  unfold bind, WY_PANIC, exit, terminate, ret, wycc_box_long, accepted_tag, dispatch_reads.
  run_loads Ho.
  repeat (match goal with
          | |- context [if typ o =? ?b then _ else _] =>
              destruct (typ o =? b) eqn:?
          end; run_loads Ho); reflexivity.
Qed.

(** The run of either conversion on a handle that is not sane. *)
Lemma toUnsignedByte_insane_run w itm :
  handle_sane w itm = false ->
  ToUnsignedByte.wycc__toUnsignedByte itm w =
    (Terminated SanityAbort,
     add_trace [EvSanityCheck itm "wycc__toUnsignedByte";
                EvStderr (SanityDiag "wycc__toUnsignedByte")] w).
Proof.
  intros Hs. unfold ToUnsignedByte.wycc__toUnsignedByte.
  by rewrite (bind_terminated _ _ _ _ _ (WY_OBJ_SANE_insane _ _ _ Hs)).
Qed.

Lemma toUnsignedInt_insane_run w itm :
  handle_sane w itm = false ->
  ToUnsignedInt.wycc__toUnsignedInt itm w =
    (Terminated SanityAbort,
     add_trace [EvSanityCheck itm "wycc__toUnsignedInt";
                EvStderr (SanityDiag "wycc__toUnsignedInt")] w).
Proof.
  intros Hs. unfold ToUnsignedInt.wycc__toUnsignedInt.
  by rewrite (bind_terminated _ _ _ _ _ (WY_OBJ_SANE_insane _ _ _ Hs)).
Qed.
End Conversions.

(** ** The conversions: results, failures and effects *)
Section ConversionTheorems.
Context `{Hdr : wycc_lib_h}.

Lemma alloc_run o evs w :
  alloc o (add_trace evs w) =
    (Returned (fresh ({[0]} ∪ dom (heap w))),
     add_trace (evs ++ [EvAlloc (fresh ({[0]} ∪ dom (heap w)))])
       (set_heap (<[fresh ({[0]} ∪ dom (heap w)) := o]> (heap w)) w)).
Proof.
  unfold alloc, log, add_trace, set_heap; cbn.
  by rewrite <- (assoc_L (++)).
Qed.

Lemma accepted_tag_true t :
  accepted_tag t = true <-> t = Wy_Int \/ t = Wy_Char \/ t = Wy_Byte.
Proof.
  unfold accepted_tag. rewrite !orb_true_iff, !Z.eqb_eq. tauto.
Qed.

Lemma accepted_tag_false t :
  accepted_tag t = false <-> t <> Wy_Int /\ t <> Wy_Char /\ t <> Wy_Byte.
Proof.
  unfold accepted_tag. rewrite !orb_false_iff, !Z.eqb_neq. tauto.
Qed.

Lemma in_byte_range v : (0 <=? v) && (v <=? 255) = true <-> 0 <= v <= 255.
Proof. rewrite andb_true_iff, !Z.leb_le. tauto. Qed.

(** C1: applied to a boxed value of tag [Wy_Int], [Wy_Char] or
    [Wy_Byte] and payload [v], [wycc__toUnsignedByte] returns a handle
    to a [Wy_Byte] object of payload [v] if and only if 0 <= v <= 255;
    for every other [v] the process ends by [exit (-4)], the status of
    a violated precondition, and nothing is returned. *)
Theorem toUnsignedByte_returns_iff_in_range (w : world) (itm : Z) (o : wycc_obj) :
  handle_sane w itm = true ->
  heap w !! itm = Some o ->
  typ o = Wy_Int \/ typ o = Wy_Char \/ typ o = Wy_Byte ->
  ((exists h, fst (ToUnsignedByte.wycc__toUnsignedByte itm w) = Returned h /\
              heap (snd (ToUnsignedByte.wycc__toUnsignedByte itm w)) !! h =
                Some {| typ := Wy_Byte; ptr := ptr o |})
   <-> 0 <= ptr o <= 255) /\
  (~ (0 <= ptr o <= 255) ->
   fst (ToUnsignedByte.wycc__toUnsignedByte itm w) = Terminated (Exit (-4))).
Proof.
  intros Hs Ho Ht%accepted_tag_true.
  rewrite (toUnsignedByte_run w itm o Hs Ho); cbv zeta; rewrite Ht.
  destruct ((0 <=? ptr o) && (ptr o <=? 255)) eqn:Hr.
  - apply in_byte_range in Hr. rewrite alloc_run; cbn [fst snd].
    split; [| tauto]. split; [tauto |]. intros _. eexists; split; [reflexivity |].
    cbn. apply lookup_insert_eq.
  - assert (~ (0 <= ptr o <= 255)) as Hn
      by (rewrite <- in_byte_range, Hr; discriminate).
    cbn [fst snd]. split; [| reflexivity].
    split; [| tauto]. intros (h & Hh & _); discriminate.
Qed.

(** C2: applied to a boxed value of tag [Wy_Int], [Wy_Char] or
    [Wy_Byte] and payload [v], [wycc__toUnsignedInt] always returns,
    and what it returns is a handle to a [Wy_Int] object of payload
    [v]; no range is imposed on [v], a negative [v] included. *)
Theorem toUnsignedInt_always_returns (w : world) (itm : Z) (o : wycc_obj) :
  handle_sane w itm = true ->
  heap w !! itm = Some o ->
  typ o = Wy_Int \/ typ o = Wy_Char \/ typ o = Wy_Byte ->
  exists h, fst (ToUnsignedInt.wycc__toUnsignedInt itm w) = Returned h /\
            heap (snd (ToUnsignedInt.wycc__toUnsignedInt itm w)) !! h =
              Some {| typ := Wy_Int; ptr := ptr o |}.
Proof.
  intros Hs Ho Ht%accepted_tag_true.
  rewrite (toUnsignedInt_run w itm o Hs Ho); cbv zeta; rewrite Ht.
  rewrite alloc_run; cbn [fst snd].
  eexists; split; [reflexivity |]. cbn. apply lookup_insert_eq.
Qed.

(** C3: on a boxed value whose tag is none of [Wy_Int], [Wy_Char],
    [Wy_Byte], both conversions end the process by [exit (-3)], the
    status of an unsupported type, and return no value. *)
Theorem conversions_reject_other_tags (w : world) (itm : Z) (o : wycc_obj) :
  handle_sane w itm = true ->
  heap w !! itm = Some o ->
  typ o <> Wy_Int -> typ o <> Wy_Char -> typ o <> Wy_Byte ->
  (fst (ToUnsignedByte.wycc__toUnsignedByte itm w) = Terminated (Exit (-3)) /\
   forall h, fst (ToUnsignedByte.wycc__toUnsignedByte itm w) <> Returned h) /\
  (fst (ToUnsignedInt.wycc__toUnsignedInt itm w) = Terminated (Exit (-3)) /\
   forall h, fst (ToUnsignedInt.wycc__toUnsignedInt itm w) <> Returned h).
Proof.
  intros Hs Ho H1 H2 H3.
  assert (accepted_tag (typ o) = false) as Ht by (by apply accepted_tag_false).
  rewrite (toUnsignedByte_run w itm o Hs Ho), (toUnsignedInt_run w itm o Hs Ho).
  cbv zeta; rewrite Ht; cbn [fst]. repeat split; intros; discriminate.
Qed.
Lemma handle_insane_intro w itm :
  itm = 0 \/ heap w !! itm = None \/
    (exists o, heap w !! itm = Some o /\ wycc_obj_consistent o = false) ->
  handle_sane w itm = false.
Proof.
  unfold handle_sane. intros [-> | [-> | (o & -> & ->)]].
  - reflexivity.
  - apply andb_false_r.
  - apply andb_false_r.
Qed.

(** Every run of a conversion starts with the sanity check of its
    argument under the routine's own name. *)
Lemma toUnsignedByte_trace_head w itm :
  exists evs,
    trace (snd (ToUnsignedByte.wycc__toUnsignedByte itm w)) =
      trace w ++ EvSanityCheck itm "wycc__toUnsignedByte" :: evs.
Proof.
  destruct (handle_sane w itm) eqn:Hs.
  - destruct (handle_sane_lookup _ _ Hs) as (_ & o & Ho & _).
    rewrite (toUnsignedByte_run w itm o Hs Ho); cbv zeta.
    repeat match goal with
           | |- context [if ?b then _ else _] => destruct b
           end;
      rewrite ?alloc_run; cbn [snd add_trace set_heap trace];
      rewrite <- ?app_comm_cons; eauto.
  - rewrite (toUnsignedByte_insane_run w itm Hs); cbn; eauto.
Qed.

Lemma toUnsignedInt_trace_head w itm :
  exists evs,
    trace (snd (ToUnsignedInt.wycc__toUnsignedInt itm w)) =
      trace w ++ EvSanityCheck itm "wycc__toUnsignedInt" :: evs.
Proof.
  destruct (handle_sane w itm) eqn:Hs.
  - destruct (handle_sane_lookup _ _ Hs) as (_ & o & Ho & _).
    rewrite (toUnsignedInt_run w itm o Hs Ho); cbv zeta.
    repeat match goal with
           | |- context [if ?b then _ else _] => destruct b
           end;
      rewrite ?alloc_run; cbn [snd add_trace set_heap trace];
      rewrite <- ?app_comm_cons; eauto.
  - rewrite (toUnsignedInt_insane_run w itm Hs); cbn; eauto.
Qed.

(** C4: the first action of [wycc__toUnsignedByte] and of
    [wycc__toUnsignedInt] is the sanity check of the argument, under
    the routine's own name; when the handle is null, does not point to
    an object, or points to an inconsistent object, the process is
    aborted with a diagnostic that cites that name, and neither the
    tag nor the payload has been read. *)
Theorem conversions_check_sanity_first (w : world) (itm : Z) :
  (exists evs,
     trace (snd (ToUnsignedByte.wycc__toUnsignedByte itm w)) =
       trace w ++ EvSanityCheck itm "wycc__toUnsignedByte" :: evs) /\
  (exists evs,
     trace (snd (ToUnsignedInt.wycc__toUnsignedInt itm w)) =
       trace w ++ EvSanityCheck itm "wycc__toUnsignedInt" :: evs) /\
  (itm = 0 \/ heap w !! itm = None \/
     (exists o, heap w !! itm = Some o /\ wycc_obj_consistent o = false) ->
   ToUnsignedByte.wycc__toUnsignedByte itm w =
     (Terminated SanityAbort,
      add_trace [EvSanityCheck itm "wycc__toUnsignedByte";
                 EvStderr (SanityDiag "wycc__toUnsignedByte")] w) /\
   ToUnsignedInt.wycc__toUnsignedInt itm w =
     (Terminated SanityAbort,
      add_trace [EvSanityCheck itm "wycc__toUnsignedInt";
                 EvStderr (SanityDiag "wycc__toUnsignedInt")] w)).
Proof.
  split; [apply toUnsignedByte_trace_head |].
  split; [apply toUnsignedInt_trace_head |].
  intros Hbad%handle_insane_intro. split.
  - by apply toUnsignedByte_insane_run.
  - by apply toUnsignedInt_insane_run.
Qed.

(** The ways in which the conversions end the process. *)
Lemma toUnsignedByte_terminations w itm t w' :
  ToUnsignedByte.wycc__toUnsignedByte itm w = (Terminated t, w') ->
  (t = SanityAbort /\ handle_sane w itm = false) \/
  (t = Exit (-3) /\ unsupported_type_violation w itm) \/
  (t = Exit (-4) /\ range_violation w itm).
Proof.
  destruct (handle_sane w itm) eqn:Hs.
  - destruct (handle_sane_lookup _ _ Hs) as (_ & o & Ho & _).
    rewrite (toUnsignedByte_run w itm o Hs Ho); cbv zeta.
    destruct (accepted_tag (typ o)) eqn:Ht.
    + destruct ((0 <=? ptr o) && (ptr o <=? 255)) eqn:Hr.
      * rewrite alloc_run; discriminate.
      * intros [= <- _]. right; right. split; [reflexivity |].
        split; [exact Hs |]. exists o. repeat split; try assumption.
        rewrite <- in_byte_range, Hr. discriminate.
    + intros [= <- _]. right; left. split; [reflexivity |].
      split; [exact Hs |]. eauto.
  - rewrite (toUnsignedByte_insane_run w itm Hs). intros [= <- _]. by left.
Qed.

Lemma toUnsignedInt_terminations w itm t w' :
  ToUnsignedInt.wycc__toUnsignedInt itm w = (Terminated t, w') ->
  (t = SanityAbort /\ handle_sane w itm = false) \/
  (t = Exit (-3) /\ unsupported_type_violation w itm).
Proof.
  destruct (handle_sane w itm) eqn:Hs.
  - destruct (handle_sane_lookup _ _ Hs) as (_ & o & Ho & _).
    rewrite (toUnsignedInt_run w itm o Hs Ho); cbv zeta.
    destruct (accepted_tag (typ o)) eqn:Ht.
    + rewrite alloc_run; discriminate.
    + intros [= <- _]. right. split; [reflexivity |].
      split; [exact Hs |]. eauto.
  - rewrite (toUnsignedInt_insane_run w itm Hs). intros [= <- _]. by left.
Qed.

Lemma violation_kinds_exclusive w itm :
  unsupported_type_violation w itm -> range_violation w itm -> False.
Proof.
  intros (_ & o & Ho & Hf) (_ & o' & Ho' & Ht & _). congruence.
Qed.

(** C5: no fatal end of a conversion reports success to the parent of
    the process: whenever [wycc__toUnsignedByte] or
    [wycc__toUnsignedInt] ends the process, it is not with exit status
    zero; and the exit status of a run that fails on an unsupported
    type differs from the exit status of a run that fails on a value
    out of range. *)
Theorem conversion_failures_distinguishable
    (w1 w2 : world) (itm1 itm2 : Z) (t1 t2 : termination) (w1' w2' : world) :
  ToUnsignedByte.wycc__toUnsignedByte itm1 w1 = (Terminated t1, w1') \/
  ToUnsignedInt.wycc__toUnsignedInt itm1 w1 = (Terminated t1, w1') ->
  ToUnsignedByte.wycc__toUnsignedByte itm2 w2 = (Terminated t2, w2') \/
  ToUnsignedInt.wycc__toUnsignedInt itm2 w2 = (Terminated t2, w2') ->
  reports_success t1 = false /\
  reports_success t2 = false /\
  (unsupported_type_violation w1 itm1 -> range_violation w2 itm2 ->
   exists s1 s2, t1 = Exit s1 /\ t2 = Exit s2 /\
                 exit_status s1 <> 0 /\ exit_status s2 <> 0 /\
                 exit_status s1 <> exit_status s2).
Proof.
  intros H1 H2.
  assert (forall w itm t w',
            ToUnsignedByte.wycc__toUnsignedByte itm w = (Terminated t, w') \/
            ToUnsignedInt.wycc__toUnsignedInt itm w = (Terminated t, w') ->
            (t = SanityAbort /\ handle_sane w itm = false) \/
            (t = Exit (-3) /\ unsupported_type_violation w itm) \/
            (t = Exit (-4) /\ range_violation w itm)) as Hall.
  { intros w itm t w' [Hb | Hi].
    - by apply toUnsignedByte_terminations in Hb.
    - apply toUnsignedInt_terminations in Hi. tauto. }
  apply Hall in H1, H2. repeat split.
  - destruct H1 as [[-> _] | [[-> _] | [-> _]]]; reflexivity.
  - destruct H2 as [[-> _] | [[-> _] | [-> _]]]; reflexivity.
  - intros Hu Hr. exists (-3), (-4).
    destruct H1 as [[_ Hf] | [[-> _] | [_ Hr1]]].
    + destruct Hu as [Hs _]; congruence.
    + destruct H2 as [[_ Hf] | [[_ Hu2] | [-> _]]].
      * destruct Hr as [Hs _]; congruence.
      * destruct (violation_kinds_exclusive _ _ Hu2 Hr).
      * repeat split; try discriminate.
    + destruct (violation_kinds_exclusive _ _ Hu Hr1).
Qed.

(** C8: a call of [wycc__toUnsignedByte] or [wycc__toUnsignedInt]
    that returns leaves the process state as it was, but for one new
    object at the returned handle: the handle is not null and was not
    in use, so the argument object (like every other object) is
    unchanged, the registry and the initializer chain are unchanged,
    and nothing was written to [stderr]. *)
Theorem conversions_only_allocate (w : world) (itm h : Z) (w' : world) :
  ToUnsignedByte.wycc__toUnsignedByte itm w = (Returned h, w') \/
  ToUnsignedInt.wycc__toUnsignedInt itm w = (Returned h, w') ->
  h <> 0 /\
  heap w !! h = None /\
  heap w' !! itm = heap w !! itm /\
  exists o' evs,
    w' = add_trace evs (set_heap (<[h := o']> (heap w)) w) /\
    stderr_of evs = [].
Proof.
  intros Hrun.
  assert (exists o' evs,
            h = fresh ({[0]} ∪ dom (heap w)) /\ is_Some (heap w !! itm) /\
            w' = add_trace evs (set_heap (<[h := o']> (heap w)) w) /\
            stderr_of evs = []) as (o' & evs & Hh & Hitm & Hw & Herr).
  { destruct (handle_sane w itm) eqn:Hs.
    - destruct (handle_sane_lookup _ _ Hs) as (_ & o & Ho & _).
      destruct Hrun as [Hrun | Hrun]; revert Hrun.
      + rewrite (toUnsignedByte_run w itm o Hs Ho); cbv zeta.
        destruct (accepted_tag (typ o)); [| discriminate].
        destruct ((0 <=? ptr o) && (ptr o <=? 255)); [| discriminate].
        rewrite alloc_run. intros [= <- <-].
        do 2 eexists. repeat split; [by rewrite Ho |].
        unfold dispatch_reads.
        destruct (typ o =? Wy_Int), (typ o =? Wy_Char), (typ o =? Wy_Byte);
          reflexivity.
      + rewrite (toUnsignedInt_run w itm o Hs Ho); cbv zeta.
        destruct (accepted_tag (typ o)); [| discriminate].
        rewrite alloc_run. intros [= <- <-].
        do 2 eexists. repeat split; [by rewrite Ho |].
        unfold dispatch_reads.
        destruct (typ o =? Wy_Int), (typ o =? Wy_Char), (typ o =? Wy_Byte);
          reflexivity.
    - destruct Hrun as [Hrun | Hrun]; revert Hrun.
      + rewrite (toUnsignedByte_insane_run w itm Hs); discriminate.
      + rewrite (toUnsignedInt_insane_run w itm Hs); discriminate. }
  destruct (alloc_fresh (heap w)) as [Hnz Hnone]. rewrite <- Hh in Hnz, Hnone.
  repeat split; try assumption.
  - subst w'. cbn. apply lookup_insert_ne. intros ->.
    rewrite Hnone in Hitm. by destruct Hitm.
  - eauto.
Qed.
End ConversionTheorems.

(** ** The initializer chain *)
Section InitializerChain.

Lemma link_initor_run c b d w :
  link_initor c b d w =
    (Returned tt,
     set_init_chain (Some c)
       (set_initors
          (<[c := {| nxt := wycc_init_chain w; functionr := Some b;
                     functionq := Some d |}]> (initors w)) w)).
Proof.
  unfold link_initor, bind, load_init_chain, store_nxt, store_functionr,
    store_functionq, store_init_chain, ret, static_initor.
  cbn. unfold set_init_chain, set_initors; cbn.
  rewrite !lookup_insert_eq; cbn. rewrite !insert_insert_eq.
  reflexivity.
Qed.

Lemma ToUnsignedByte_initor_a_links :
  ToUnsignedByte.__initor_a =
    link_initor ToUnsignedByte.__initor_c
      Fn_toUnsignedByte__initor_b Fn_toUnsignedByte__initor_d.
Proof. reflexivity. Qed.

Lemma ToUnsignedInt_initor_a_links :
  ToUnsignedInt.__initor_a =
    link_initor ToUnsignedInt.__initor_c
      Fn_toUnsignedInt__initor_b Fn_toUnsignedInt__initor_d.
Proof. reflexivity. Qed.

(** A record that the walk does not meet can be rewritten without
    changing the walk. *)
Lemma chain_from_insert_other fuel : forall m p cbs c r,
  chain_from fuel m p = Some cbs ->
  c ∉ cbs.*1 ->
  chain_from fuel (<[c := r]> m) p = Some cbs.
Proof.
  induction fuel as [| fuel IH]; intros m p cbs c r Hwalk Hc.
  - destruct p; [discriminate | exact Hwalk].
  - destruct p as [c0 |]; [| exact Hwalk].
    cbn in Hwalk |- *.
    destruct (functionr (default zero_initor (m !! c0))) as [f |] eqn:Hf;
      [| discriminate].
    destruct (chain_from fuel m (nxt (default zero_initor (m !! c0))))
      as [rest |] eqn:Hrest; [| discriminate].
    cbn in Hwalk. injection Hwalk as <-.
    cbn in Hc. apply not_elem_of_cons in Hc as [Hne Hc].
    rewrite lookup_insert_ne by done. rewrite Hf.
    by rewrite (IH _ _ _ _ _ Hrest Hc).
Qed.

(** Linking a record that is not yet in the chain puts it in front of
    the chain and keeps every record that was linked before. *)
Lemma chain_records_link fuel w cbs c b d :
  chain_records fuel w = Some cbs ->
  c ∉ cbs.*1 ->
  chain_records (S fuel) (snd (link_initor c b d w)) = Some ((c, b) :: cbs).
Proof.
  intros Hwalk Hc. rewrite link_initor_run. unfold chain_records in *. cbn.
  rewrite lookup_insert_eq. cbn.
  by rewrite (chain_from_insert_other _ _ _ _ _ _ Hwalk Hc).
Qed.
Lemma link_initor_head c b d w :
  wycc_init_chain (snd (link_initor c b d w)) = Some c.
Proof. by rewrite link_initor_run. Qed.

Lemma link_initor_nxt c b d w :
  nxt (static_initor (snd (link_initor c b d w)) c) = wycc_init_chain w.
Proof.
  rewrite link_initor_run; unfold static_initor; cbn.
  by rewrite lookup_insert_eq.
Qed.

Lemma link_initor_other c b d w c' :
  c' <> c ->
  static_initor (snd (link_initor c b d w)) c' = static_initor w c'.
Proof.
  intros Hne. rewrite link_initor_run; unfold static_initor; cbn.
  by rewrite lookup_insert_ne.
Qed.

Lemma link_initor_returns c b d w :
  link_initor c b d w = (Returned tt, snd (link_initor c b d w)).
Proof. by rewrite link_initor_run. Qed.

(** The callbacks of the two translation units return, and change
    nothing but the registry. *)
Lemma call_init_fn_run f w :
  call_init_fn f w =
    (Returned tt, set_registry (init_fn_effect f (registry w)) w).
Proof. destruct f; cbn; try reflexivity; by destruct w. Qed.

Lemma register_invocations_app tr cbs :
  register_invocations
    (tr ++ map (fun cb : string * init_fn => EvRegisterCallback cb.1 cb.2) cbs) =
  register_invocations tr ++ cbs.
Proof.
  unfold register_invocations. rewrite omap_app. f_equal.
  induction cbs as [| [c f] cbs IH]; [reflexivity |].
  cbn. by rewrite IH.
Qed.

(** The walk of the driver invokes the register-callbacks of the
    chain, in the order of the chain, and returns. *)
Lemma walk_register_run fuel : forall p w cbs,
  chain_from fuel (initors w) p = Some cbs ->
  walk_register fuel p w =
    (Returned tt,
     add_trace (map (fun cb : string * init_fn => EvRegisterCallback cb.1 cb.2) cbs)
       (set_registry
          (foldl (fun reg cb => init_fn_effect cb.2 reg) (registry w) cbs) w)).
Proof.
  induction fuel as [| fuel IH]; intros p w cbs Hwalk.
  - destruct p; [discriminate |]. injection Hwalk as <-.
    destruct w; cbn. unfold ret, add_trace, set_registry; cbn.
    by rewrite app_nil_r.
  - destruct p as [c |].
    + cbn in Hwalk.
      destruct (functionr (default zero_initor (initors w !! c))) as [f |] eqn:Hf;
        [| discriminate].
      destruct (chain_from fuel (initors w)
                  (nxt (default zero_initor (initors w !! c))))
        as [rest |] eqn:Hrest; [| discriminate].
      cbn in Hwalk. injection Hwalk as <-.
      pose proof (call_init_fn_run f (log (EvRegisterCallback c f) w)) as Hcall.
      pose proof (IH (nxt (default zero_initor (initors w !! c)))
                    (set_registry (init_fn_effect f (registry w))
                       (log (EvRegisterCallback c f) w)) rest Hrest) as Hrec.
      cbn [walk_register].
      unfold bind, load_functionr, load_nxt, emit, static_initor.
      rewrite Hf, Hcall. cbn [initors set_registry log registry].
      cbn [initors set_registry log registry] in Hrec.
      rewrite Hrec. f_equal.
      unfold add_trace, set_registry, log; cbn.
      by rewrite <- (assoc_L (++)).
    + injection Hwalk as <-.
      destruct w; cbn. unfold ret, add_trace, set_registry; cbn.
      by rewrite app_nil_r.
Qed.

Lemma run_register_pass_run fuel w cbs :
  chain_records fuel w = Some cbs ->
  exists w',
    run_register_pass fuel w = (Returned tt, w') /\
    registry w' = foldl (fun reg cb => init_fn_effect cb.2 reg) (registry w) cbs /\
    register_invocations (trace w') = register_invocations (trace w) ++ cbs.
Proof.
  intros Hwalk. pose proof (walk_register_run fuel _ w cbs Hwalk) as Hrun.
  eexists. unfold run_register_pass, bind, load_init_chain.
  split; [exact Hrun |]. split; [reflexivity |].
  cbn. apply register_invocations_app.
Qed.

(** C6: the load-time constructor [__initor_a] of each translation
    unit links its record by storing the current head of the chain in
    the record's [nxt] and making the record the new head.  When
    three records R1, R2, R3, distinct and not yet linked, are linked
    in this order, the chain from the head is R3, R2, R1 followed by
    every record that was linked before, and the walk of the startup
    driver invokes the register-callbacks in that order. *)
Theorem initor_chain_links_in_front
    (w : world) (fuel : nat) (cbs : list (string * init_fn))
    (r1 r2 r3 : string) (b1 b2 b3 d1 d2 d3 : init_fn) :
  chain_records fuel w = Some cbs ->
  NoDup [r1; r2; r3] ->
  (forall r, r ∈ [r1; r2; r3] -> r ∉ cbs.*1) ->
  ToUnsignedByte.__initor_a =
    link_initor ToUnsignedByte.__initor_c
      Fn_toUnsignedByte__initor_b Fn_toUnsignedByte__initor_d /\
  ToUnsignedInt.__initor_a =
    link_initor ToUnsignedInt.__initor_c
      Fn_toUnsignedInt__initor_b Fn_toUnsignedInt__initor_d /\
  exists w',
    (link_initor r1 b1 d1 ;; link_initor r2 b2 d2 ;; link_initor r3 b3 d3) w =
      (Returned tt, w') /\
    nxt (static_initor w' r1) = wycc_init_chain w /\
    nxt (static_initor w' r2) = Some r1 /\
    nxt (static_initor w' r3) = Some r2 /\
    wycc_init_chain w' = Some r3 /\
    chain_records (3 + fuel) w' = Some ((r3, b3) :: (r2, b2) :: (r1, b1) :: cbs) /\
    exists w'',
      run_register_pass (3 + fuel) w' = (Returned tt, w'') /\
      register_invocations (trace w'') =
        register_invocations (trace w') ++
          (r3, b3) :: (r2, b2) :: (r1, b1) :: cbs.
Proof.
  intros Hwalk Hnd Hfresh.
  split; [reflexivity |]. split; [reflexivity |].
  apply NoDup_cons in Hnd as [Hr1 Hnd]. apply NoDup_cons in Hnd as [Hr2 _].
  apply not_elem_of_cons in Hr1 as [H12 Hr1].
  apply not_elem_of_cons in Hr1 as [H13 _].
  apply not_elem_of_cons in Hr2 as [H23 _].
  assert (r1 ∉ cbs.*1) as Hf1 by (apply Hfresh; repeat constructor).
  assert (r2 ∉ ((r1, b1) :: cbs).*1) as Hf2.
  { cbn. apply not_elem_of_cons. split; [congruence |].
    apply Hfresh; repeat constructor. }
  assert (r3 ∉ ((r2, b2) :: (r1, b1) :: cbs).*1) as Hf3.
  { cbn. apply not_elem_of_cons. split; [congruence |].
    apply not_elem_of_cons. split; [congruence |].
    apply Hfresh; repeat constructor. }
  pose proof (chain_records_link fuel w cbs r1 b1 d1 Hwalk Hf1) as Hw1.
  pose proof (chain_records_link _ _ _ r2 b2 d2 Hw1 Hf2) as Hw2.
  pose proof (chain_records_link _ _ _ r3 b3 d3 Hw2 Hf3) as Hw3.
  eexists. split.
  { rewrite (bind_returned _ _ _ _ _ (link_initor_returns r1 b1 d1 w)).
    rewrite (bind_returned _ _ _ _ _ (link_initor_returns r2 b2 d2 _)).
    apply link_initor_returns. }
  split.
  { rewrite link_initor_other by congruence.
    rewrite link_initor_other by congruence.
    apply link_initor_nxt. }
  split.
  { rewrite link_initor_other by congruence.
    rewrite link_initor_nxt. apply link_initor_head. }
  split.
  { rewrite link_initor_nxt. apply link_initor_head. }
  split; [apply link_initor_head |].
  split; [exact Hw3 |].
  destruct (run_register_pass_run _ _ _ Hw3) as (w'' & Hrun & _ & Hinv).
  eauto.
Qed.
End InitializerChain.

(** ** The registry of native routines *)
Section Registry.

Lemma register_all_keeps_unregistered ops : forall w (k : string * string),
  registry w !! k = None ->
  k ∉ ops.*1 ->
  exists w', register_all ops w = (Returned tt, w') /\ registry w' !! k = None.
Proof.
  induction ops as [| [[name sig] fn] ops IH]; intros w k Hk Hops.
  - exists w. by split.
  - cbn in Hops. apply not_elem_of_cons in Hops as [Hne Hops].
    destruct (IH (set_registry (<[(name, sig) := fn]> (registry w)) w) k)
      as (w' & Hrun & Hlook); [| exact Hops |].
    + cbn. by rewrite lookup_insert_ne.
    + exists w'. split; [| exact Hlook]. exact Hrun.
Qed.

Lemma chain_records_empty w :
  wycc_init_chain w = None -> chain_records 0 w = Some [].
Proof. unfold chain_records. by intros ->. Qed.

(** The startup of a process made of the two translation units, whose
    constructors [first] and [second] run in this order. *)
Lemma startup_registers_both w c1 b1 d1 c2 b2 d2 :
  wycc_init_chain w = None ->
  c2 <> c1 ->
  exists w',
    (link_initor c1 b1 d1 ;; link_initor c2 b2 d2 ;; run_register_pass 2) w =
      (Returned tt, w') /\
    registry w' = init_fn_effect b1 (init_fn_effect b2 (registry w)).
Proof.
  intros Hempty Hne.
  pose proof (chain_records_link 0 w [] c1 b1 d1 (chain_records_empty w Hempty))
    as Hw1.
  specialize (Hw1 ltac:(cbn; apply not_elem_of_nil)).
  pose proof (chain_records_link 1 _ _ c2 b2 d2 Hw1) as Hw2.
  specialize (Hw2 ltac:(cbn; apply not_elem_of_cons; split;
                        [exact Hne | apply not_elem_of_nil])).
  destruct (run_register_pass_run _ _ _ Hw2) as (w' & Hrun & Hreg & _).
  exists w'. split.
  - rewrite (bind_returned _ _ _ _ _ (link_initor_returns c1 b1 d1 w)).
    rewrite (bind_returned _ _ _ _ _ (link_initor_returns c2 b2 d2 _)).
    exact Hrun.
  - rewrite Hreg. by rewrite !link_initor_run.
Qed.

(** C7: a registration of [fn] under (name, signature) followed by
    the lookup of (name, signature) returns [fn]; the lookup of a pair
    that was never registered returns "not found"; and once the
    register-callbacks of the two translation units have run, in
    whatever order their constructors linked them, the lookup of
    ("toUnsignedByte", "[^d,v,i]") gives [wycc__toUnsignedByte] and
    the lookup of ("toUnsignedInt", "[^i,v,d]") gives
    [wycc__toUnsignedInt]. *)
Theorem registry_register_then_lookup
    (name sig : string) (fn : native_fn) (w : world)
    (ops : list (string * string * native_fn)) (name' sig' : string)
    (w0 w1 : world) :
  registry w0 = ∅ ->
  (name', sig') ∉ ops.*1 ->
  wycc_init_chain w1 = None ->
  (exists w',
     wycc_register_routine name sig fn w = (Returned tt, w') /\
     wycc_lookup_routine name sig w' = Some fn) /\
  (exists w',
     register_all ops w0 = (Returned tt, w') /\
     wycc_lookup_routine name' sig' w' = None) /\
  (exists w',
     (ToUnsignedByte.__initor_a ;; ToUnsignedInt.__initor_a ;;
      run_register_pass 2) w1 = (Returned tt, w') /\
     wycc_lookup_routine "toUnsignedByte" "[^d,v,i]" w' =
       Some Fn_wycc__toUnsignedByte /\
     wycc_lookup_routine "toUnsignedInt" "[^i,v,d]" w' =
       Some Fn_wycc__toUnsignedInt) /\
  (exists w',
     (ToUnsignedInt.__initor_a ;; ToUnsignedByte.__initor_a ;;
      run_register_pass 2) w1 = (Returned tt, w') /\
     wycc_lookup_routine "toUnsignedByte" "[^d,v,i]" w' =
       Some Fn_wycc__toUnsignedByte /\
     wycc_lookup_routine "toUnsignedInt" "[^i,v,d]" w' =
       Some Fn_wycc__toUnsignedInt).
Proof.
  intros Hreg0 Hops Hchain.
  split.
  { eexists. split; [reflexivity |].
    unfold wycc_lookup_routine; cbn. apply lookup_insert_eq. }
  split.
  { apply register_all_keeps_unregistered; [| exact Hops].
    rewrite Hreg0. apply lookup_empty. }
  split.
  - rewrite ToUnsignedByte_initor_a_links, ToUnsignedInt_initor_a_links.
    destruct (startup_registers_both w1
                ToUnsignedByte.__initor_c Fn_toUnsignedByte__initor_b
                Fn_toUnsignedByte__initor_d
                ToUnsignedInt.__initor_c Fn_toUnsignedInt__initor_b
                Fn_toUnsignedInt__initor_d Hchain)
      as (w' & Hrun & Hreg); [discriminate |].
    exists w'. split; [exact Hrun |].
    unfold wycc_lookup_routine; rewrite Hreg; cbn. split.
    + apply lookup_insert_eq.
    + rewrite lookup_insert_ne by discriminate. apply lookup_insert_eq.
  - rewrite ToUnsignedByte_initor_a_links, ToUnsignedInt_initor_a_links.
    destruct (startup_registers_both w1
                ToUnsignedInt.__initor_c Fn_toUnsignedInt__initor_b
                Fn_toUnsignedInt__initor_d
                ToUnsignedByte.__initor_c Fn_toUnsignedByte__initor_b
                Fn_toUnsignedByte__initor_d Hchain)
      as (w' & Hrun & Hreg); [discriminate |].
    exists w'. split; [exact Hrun |].
    unfold wycc_lookup_routine; rewrite Hreg; cbn. split.
    + rewrite lookup_insert_ne by discriminate. apply lookup_insert_eq.
    + apply lookup_insert_eq.
Qed.
End Registry.

(** ** The conversions on the sample data *)
Section Examples.
Existing Instance sample_header.

Example int_42_to_byte :
  fst (ToUnsignedByte.wycc__toUnsignedByte 16 sample_int_42) = Returned 17 /\
  heap (snd (ToUnsignedByte.wycc__toUnsignedByte 16 sample_int_42)) !! 17 =
    Some {| typ := Wy_Byte; ptr := 42 |}.
Proof. split; vm_compute; reflexivity. Qed.

Example int_300_to_byte :
  fst (ToUnsignedByte.wycc__toUnsignedByte 16 sample_int_300) =
    Terminated (Exit (-4)).
Proof. vm_compute; reflexivity. Qed.

Example byte_7_to_int :
  fst (ToUnsignedInt.wycc__toUnsignedInt 16 sample_byte_7) = Returned 17 /\
  heap (snd (ToUnsignedInt.wycc__toUnsignedInt 16 sample_byte_7)) !! 17 =
    Some {| typ := Wy_Int; ptr := 7 |}.
Proof. split; vm_compute; reflexivity. Qed.

Example other_tag_to_byte :
  fst (ToUnsignedByte.wycc__toUnsignedByte 16 sample_other_tag) =
    Terminated (Exit (-3)).
Proof. vm_compute; reflexivity. Qed.

Example null_to_int :
  ToUnsignedInt.wycc__toUnsignedInt 0 sample_int_42 =
    (Terminated SanityAbort,
     add_trace [EvSanityCheck 0 "wycc__toUnsignedInt";
                EvStderr (SanityDiag "wycc__toUnsignedInt")] sample_int_42).
Proof. vm_compute; reflexivity. Qed.

Example exit_statuses : exit_status (-3) = 253 /\ exit_status (-4) = 252.
Proof. split; reflexivity. Qed.

(** The text of the diagnostic of [wycc__toUnsignedInt] for an
    unsupported type names [wycc__toUnsignedByte], as in the sources. *)
Example other_tag_to_int_diagnostic :
  stderr_of (trace (snd (ToUnsignedInt.wycc__toUnsignedInt 16 sample_other_tag))) =
    [Fprintf ("Help needed in wycc__toUnsignedByte for type %d" ++ LF)%string [7]].
Proof. vm_compute; reflexivity. Qed.

(** A constructor that ran twice would close the chain on itself: the
    walk from the head then never ends. *)
Remark link_twice_loops c b d fuel :
  chain_records fuel
    (snd (link_initor c b d (snd (link_initor c b d empty_world)))) = None.
Proof.
  rewrite !link_initor_run. unfold chain_records; cbn.
  rewrite insert_insert_eq.
  induction fuel as [| fuel IH]; [reflexivity |].
  cbn. rewrite lookup_insert_eq. cbn. by rewrite IH.
Qed.
End Examples.

(** ** The theorems applied to the sample data *)

Lemma toUnsignedByte_returns_iff_in_range_witness :
  handle_sane (Hdr := sample_header) sample_int_42 16 = true /\
  heap sample_int_42 !! 16 = Some {| typ := 2; ptr := 42 |} /\
  ((exists h,
      fst (ToUnsignedByte.wycc__toUnsignedByte (Hdr := sample_header) 16 sample_int_42)
        = Returned h /\
      heap (snd (ToUnsignedByte.wycc__toUnsignedByte (Hdr := sample_header) 16
                   sample_int_42)) !! h = Some {| typ := 4; ptr := 42 |})
   <-> 0 <= 42 <= 255).
Proof.
  split; [vm_compute; reflexivity |].
  split; [vm_compute; reflexivity |].
  apply (toUnsignedByte_returns_iff_in_range (Hdr := sample_header)
           sample_int_42 16 {| typ := 2; ptr := 42 |}).
  - vm_compute; reflexivity.
  - vm_compute; reflexivity.
  - left; reflexivity.
Defined.

Lemma toUnsignedInt_always_returns_witness :
  handle_sane (Hdr := sample_header) sample_int_neg5 16 = true /\
  heap sample_int_neg5 !! 16 = Some {| typ := 2; ptr := -5 |} /\
  exists h,
    fst (ToUnsignedInt.wycc__toUnsignedInt (Hdr := sample_header) 16 sample_int_neg5)
      = Returned h /\
    heap (snd (ToUnsignedInt.wycc__toUnsignedInt (Hdr := sample_header) 16
                 sample_int_neg5)) !! h = Some {| typ := 2; ptr := -5 |}.
Proof.
  split; [vm_compute; reflexivity |].
  split; [vm_compute; reflexivity |].
  apply (toUnsignedInt_always_returns (Hdr := sample_header)
           sample_int_neg5 16 {| typ := 2; ptr := -5 |}).
  - vm_compute; reflexivity.
  - vm_compute; reflexivity.
  - left; reflexivity.
Defined.

Lemma conversions_reject_other_tags_witness :
  handle_sane (Hdr := sample_header) sample_other_tag 16 = true /\
  heap sample_other_tag !! 16 = Some {| typ := 7; ptr := 1 |} /\
  fst (ToUnsignedByte.wycc__toUnsignedByte (Hdr := sample_header) 16 sample_other_tag)
    = Terminated (Exit (-3)) /\
  fst (ToUnsignedInt.wycc__toUnsignedInt (Hdr := sample_header) 16 sample_other_tag)
    = Terminated (Exit (-3)).
Proof.
  split; [vm_compute; reflexivity |].
  split; [vm_compute; reflexivity |].
  pose proof (conversions_reject_other_tags (Hdr := sample_header)
                sample_other_tag 16 {| typ := 7; ptr := 1 |}) as H.
  destruct H as [[Hb _] [Hi _]].
  - vm_compute; reflexivity.
  - vm_compute; reflexivity.
  - discriminate.
  - discriminate.
  - discriminate.
  - split; assumption.
Defined.

Lemma conversions_check_sanity_first_witness :
  (0 = 0 \/ heap sample_int_42 !! 0 = None \/
     (exists o, heap sample_int_42 !! 0 = Some o /\
                wycc_obj_consistent (wycc_lib_h := sample_header) o = false)) /\
  ToUnsignedByte.wycc__toUnsignedByte (Hdr := sample_header) 0 sample_int_42 =
    (Terminated SanityAbort,
     add_trace [EvSanityCheck 0 "wycc__toUnsignedByte";
                EvStderr (SanityDiag "wycc__toUnsignedByte")] sample_int_42) /\
  ToUnsignedInt.wycc__toUnsignedInt (Hdr := sample_header) 0 sample_int_42 =
    (Terminated SanityAbort,
     add_trace [EvSanityCheck 0 "wycc__toUnsignedInt";
                EvStderr (SanityDiag "wycc__toUnsignedInt")] sample_int_42).
Proof.
  split; [left; reflexivity |].
  apply (proj2 (proj2 (conversions_check_sanity_first (Hdr := sample_header)
                         sample_int_42 0))).
  left; reflexivity.
Defined.

Lemma conversion_failures_distinguishable_witness :
  unsupported_type_violation (Hdr := sample_header) sample_other_tag 16 /\
  range_violation (Hdr := sample_header) sample_int_300 16 /\
  exists s1 s2,
    Exit (-3) = Exit s1 /\ Exit (-4) = Exit s2 /\
    exit_status s1 <> 0 /\ exit_status s2 <> 0 /\
    exit_status s1 <> exit_status s2.
Proof.
  assert (unsupported_type_violation (Hdr := sample_header) sample_other_tag 16)
    as Hu.
  { split; [vm_compute; reflexivity |].
    exists {| typ := 7; ptr := 1 |}. split; vm_compute; reflexivity. }
  assert (range_violation (Hdr := sample_header) sample_int_300 16) as Hr.
  { split; [vm_compute; reflexivity |].
    exists {| typ := 2; ptr := 300 |}.
    split; [vm_compute; reflexivity |].
    split; [vm_compute; reflexivity |]. cbn; lia. }
  split; [exact Hu |]. split; [exact Hr |].
  refine (proj2 (proj2 (conversion_failures_distinguishable (Hdr := sample_header)
            sample_other_tag sample_int_300 16 16 (Exit (-3)) (Exit (-4))
            (snd (ToUnsignedInt.wycc__toUnsignedInt (Hdr := sample_header) 16
                    sample_other_tag))
            (snd (ToUnsignedByte.wycc__toUnsignedByte (Hdr := sample_header) 16
                    sample_int_300))
            _ _)) Hu Hr).
  - right; vm_compute; reflexivity.
  - left; vm_compute; reflexivity.
Defined.

Lemma initor_chain_links_in_front_witness :
  chain_records 0 empty_world = Some [] /\
  NoDup [ToUnsignedByte.__initor_c; ToUnsignedInt.__initor_c; "wycc__sibling.c"] /\
  exists w',
    (link_initor ToUnsignedByte.__initor_c
       Fn_toUnsignedByte__initor_b Fn_toUnsignedByte__initor_d ;;
     link_initor ToUnsignedInt.__initor_c
       Fn_toUnsignedInt__initor_b Fn_toUnsignedInt__initor_d ;;
     link_initor "wycc__sibling.c"
       Fn_toUnsignedByte__initor_d Fn_toUnsignedInt__initor_d) empty_world =
      (Returned tt, w') /\
    chain_records 3 w' =
      Some [("wycc__sibling.c", Fn_toUnsignedByte__initor_d);
            (ToUnsignedInt.__initor_c, Fn_toUnsignedInt__initor_b);
            (ToUnsignedByte.__initor_c, Fn_toUnsignedByte__initor_b)].
Proof.
  assert (NoDup [ToUnsignedByte.__initor_c; ToUnsignedInt.__initor_c;
                 "wycc__sibling.c"]) as Hnd.
  { repeat (apply NoDup_cons; split);
      [ | | | apply NoDup_nil; exact I ];
      repeat (apply not_elem_of_cons; split; [discriminate |]);
      apply not_elem_of_nil. }
  split; [reflexivity |]. split; [exact Hnd |].
  destruct (initor_chain_links_in_front empty_world 0 []
              ToUnsignedByte.__initor_c ToUnsignedInt.__initor_c "wycc__sibling.c"
              Fn_toUnsignedByte__initor_b Fn_toUnsignedInt__initor_b
              Fn_toUnsignedByte__initor_d
              Fn_toUnsignedByte__initor_d Fn_toUnsignedInt__initor_d
              Fn_toUnsignedInt__initor_d
              eq_refl Hnd (fun r _ => not_elem_of_nil r))
    as (_ & _ & w' & Hrun & _ & _ & _ & _ & Hchain & _).
  exists w'. split; [exact Hrun | exact Hchain].
Defined.

Lemma registry_register_then_lookup_witness :
  registry empty_world = ∅ /\
  (("toUnsignedByte", "[^i,v,d]") ∉
     [("toUnsignedInt", "[^i,v,d]", Fn_wycc__toUnsignedInt)].*1) /\
  wycc_init_chain empty_world = None /\
  (exists w',
     register_all [("toUnsignedInt", "[^i,v,d]", Fn_wycc__toUnsignedInt)]
       empty_world = (Returned tt, w') /\
     wycc_lookup_routine "toUnsignedByte" "[^i,v,d]" w' = None) /\
  (exists w',
     (ToUnsignedByte.__initor_a ;; ToUnsignedInt.__initor_a ;;
      run_register_pass 2) empty_world = (Returned tt, w') /\
     wycc_lookup_routine "toUnsignedByte" "[^d,v,i]" w' =
       Some Fn_wycc__toUnsignedByte /\
     wycc_lookup_routine "toUnsignedInt" "[^i,v,d]" w' =
       Some Fn_wycc__toUnsignedInt).
Proof.
  assert (("toUnsignedByte", "[^i,v,d]") ∉
            [("toUnsignedInt", "[^i,v,d]", Fn_wycc__toUnsignedInt)].*1) as Hops.
  { cbn. apply not_elem_of_cons; split; [discriminate | apply not_elem_of_nil]. }
  split; [reflexivity |]. split; [exact Hops |]. split; [reflexivity |].
  destruct (registry_register_then_lookup
              "toUnsignedByte" "[^d,v,i]" Fn_wycc__toUnsignedByte empty_world
              [("toUnsignedInt", "[^i,v,d]", Fn_wycc__toUnsignedInt)]
              "toUnsignedByte" "[^i,v,d]" empty_world empty_world
              eq_refl Hops eq_refl)
    as (_ & Hb & Hc & _).
  split; [exact Hb | exact Hc].
Defined.

Lemma conversions_only_allocate_witness :
  (ToUnsignedByte.wycc__toUnsignedByte (Hdr := sample_header) 16 sample_int_42 =
     (Returned 17,
      snd (ToUnsignedByte.wycc__toUnsignedByte (Hdr := sample_header) 16
             sample_int_42))) /\
  17 <> 0 /\
  heap sample_int_42 !! 17 = None /\
  heap (snd (ToUnsignedByte.wycc__toUnsignedByte (Hdr := sample_header) 16
               sample_int_42)) !! 16 = heap sample_int_42 !! 16.
Proof.
  assert (ToUnsignedByte.wycc__toUnsignedByte (Hdr := sample_header) 16 sample_int_42 =
            (Returned 17,
             snd (ToUnsignedByte.wycc__toUnsignedByte (Hdr := sample_header) 16
                    sample_int_42))) as Hrun
    by (vm_compute; reflexivity).
  split; [exact Hrun |].
  destruct (conversions_only_allocate (Hdr := sample_header) sample_int_42 16 17 _
              (or_introl Hrun)) as (Hnz & Hfree & Hitm & _).
  split; [exact Hnz |]. split; [exact Hfree | exact Hitm].
Defined.

(** ** Further properties of the conversions *)
Section ConversionProperties.
Context `{Hdr : wycc_lib_h}.

(** What a returning run of [wycc__toUnsignedByte] says about its
    argument and its result. *)
Lemma toUnsignedByte_returned w itm h w' :
  ToUnsignedByte.wycc__toUnsignedByte itm w = (Returned h, w') ->
  exists o evs,
    handle_sane w itm = true /\ heap w !! itm = Some o /\
    accepted_tag (typ o) = true /\ 0 <= ptr o <= 255 /\
    h = fresh ({[0]} ∪ dom (heap w)) /\
    w' = add_trace evs
           (set_heap (<[h := {| typ := Wy_Byte; ptr := ptr o |}]> (heap w)) w) /\
    stderr_of evs = [].
Proof.
  destruct (handle_sane w itm) eqn:Hs.
  - destruct (handle_sane_lookup _ _ Hs) as (_ & o & Ho & _).
    rewrite (toUnsignedByte_run w itm o Hs Ho); cbv zeta.
    destruct (accepted_tag (typ o)) eqn:Ht; [| discriminate].
    destruct ((0 <=? ptr o) && (ptr o <=? 255)) eqn:Hr; [| discriminate].
    rewrite alloc_run. intros [= <- <-].
    exists o. eexists. do 3 (split; [done |]).
    split; [by apply in_byte_range |]. do 2 (split; [reflexivity |]).
    unfold dispatch_reads.
    destruct (typ o =? Wy_Int), (typ o =? Wy_Char), (typ o =? Wy_Byte);
      reflexivity.
  - rewrite (toUnsignedByte_insane_run w itm Hs); discriminate.
Qed.

Lemma toUnsignedInt_returned w itm h w' :
  ToUnsignedInt.wycc__toUnsignedInt itm w = (Returned h, w') ->
  exists o evs,
    handle_sane w itm = true /\ heap w !! itm = Some o /\
    accepted_tag (typ o) = true /\
    h = fresh ({[0]} ∪ dom (heap w)) /\
    w' = add_trace evs
           (set_heap (<[h := {| typ := Wy_Int; ptr := ptr o |}]> (heap w)) w) /\
    stderr_of evs = [].
Proof.
  destruct (handle_sane w itm) eqn:Hs.
  - destruct (handle_sane_lookup _ _ Hs) as (_ & o & Ho & _).
    rewrite (toUnsignedInt_run w itm o Hs Ho); cbv zeta.
    destruct (accepted_tag (typ o)) eqn:Ht; [| discriminate].
    rewrite alloc_run. intros [= <- <-].
    exists o. eexists. do 3 (split; [done |]).
    do 2 (split; [reflexivity |]).
    unfold dispatch_reads.
    destruct (typ o =? Wy_Int), (typ o =? Wy_Char), (typ o =? Wy_Byte);
      reflexivity.
  - rewrite (toUnsignedInt_insane_run w itm Hs); discriminate.
Qed.

(** X1: [wycc__toUnsignedByte] returns only for a handle that is not
    null and points to a consistent object whose tag is [Wy_Int],
    [Wy_Char] or [Wy_Byte] and whose payload lies in 0..255; the handle
    it returns then points to a [Wy_Byte] object of that payload. *)
Theorem toUnsignedByte_returns_only_if (w : world) (itm h : Z) (w' : world) :
  ToUnsignedByte.wycc__toUnsignedByte itm w = (Returned h, w') ->
  exists o,
    itm <> 0 /\ heap w !! itm = Some o /\ wycc_obj_consistent o = true /\
    (typ o = Wy_Int \/ typ o = Wy_Char \/ typ o = Wy_Byte) /\
    0 <= ptr o <= 255 /\
    heap w' !! h = Some {| typ := Wy_Byte; ptr := ptr o |}.
Proof.
  intros (o & evs & Hs & Ho & Ht & Hr & _ & -> & _)%toUnsignedByte_returned.
  destruct (handle_sane_lookup _ _ Hs) as (Hnz & o' & Ho' & Hc).
  assert (o' = o) as -> by congruence.
  exists o. do 3 (split; [done |]).
  split; [by apply accepted_tag_true |]. split; [done |].
  cbn. apply lookup_insert_eq.
Qed.

(** X2: [wycc__toUnsignedInt] returns only for a handle that is not null
    and points to a consistent object whose tag is [Wy_Int], [Wy_Char]
    or [Wy_Byte]; the handle it returns then points to a [Wy_Int]
    object of the same payload. *)
Theorem toUnsignedInt_returns_only_if (w : world) (itm h : Z) (w' : world) :
  ToUnsignedInt.wycc__toUnsignedInt itm w = (Returned h, w') ->
  exists o,
    itm <> 0 /\ heap w !! itm = Some o /\ wycc_obj_consistent o = true /\
    (typ o = Wy_Int \/ typ o = Wy_Char \/ typ o = Wy_Byte) /\
    heap w' !! h = Some {| typ := Wy_Int; ptr := ptr o |}.
Proof.
  intros (o & evs & Hs & Ho & Ht & _ & -> & _)%toUnsignedInt_returned.
  destruct (handle_sane_lookup _ _ Hs) as (Hnz & o' & Ho' & Hc).
  assert (o' = o) as -> by congruence.
  exists o. do 3 (split; [done |]).
  split; [by apply accepted_tag_true |].
  cbn. apply lookup_insert_eq.
Qed.

(** X3: neither conversion ever reads through a pointer that points to
    no object, calls the byte factory with a value outside 0..255, or
    fails to end: no run has a memory fault, a fatal failure of the
    factory, or an outcome without result. *)
Theorem conversions_never_fault (w : world) (itm : Z) :
  (fst (ToUnsignedByte.wycc__toUnsignedByte itm w) <> Terminated Segfault /\
   fst (ToUnsignedByte.wycc__toUnsignedByte itm w) <> Terminated FactoryFatal /\
   fst (ToUnsignedByte.wycc__toUnsignedByte itm w) <> OutOfFuel) /\
  (fst (ToUnsignedInt.wycc__toUnsignedInt itm w) <> Terminated Segfault /\
   fst (ToUnsignedInt.wycc__toUnsignedInt itm w) <> Terminated FactoryFatal /\
   fst (ToUnsignedInt.wycc__toUnsignedInt itm w) <> OutOfFuel).
Proof.
  destruct (handle_sane w itm) eqn:Hs.
  - destruct (handle_sane_lookup _ _ Hs) as (_ & o & Ho & _).
    rewrite (toUnsignedByte_run w itm o Hs Ho), (toUnsignedInt_run w itm o Hs Ho).
    cbv zeta. destruct (accepted_tag (typ o)).
    + destruct ((0 <=? ptr o) && (ptr o <=? 255));
        rewrite ?alloc_run; cbn [fst]; repeat split; discriminate.
    + cbn [fst]; repeat split; discriminate.
  - rewrite (toUnsignedByte_insane_run w itm Hs), (toUnsignedInt_insane_run w itm Hs).
    cbn [fst]; repeat split; discriminate.
Qed.

(** X4: a run of a conversion that ends the process has changed nothing
    in the process state (heap, registry, initializer chain) and has
    written exactly one diagnostic to [stderr]. *)
Theorem conversions_fail_without_effect
    (w : world) (itm : Z) (t : termination) (w' : world) :
  ToUnsignedByte.wycc__toUnsignedByte itm w = (Terminated t, w') \/
  ToUnsignedInt.wycc__toUnsignedInt itm w = (Terminated t, w') ->
  exists evs d, w' = add_trace evs w /\ stderr_of evs = [d].
Proof.
  intros Hrun. destruct (handle_sane w itm) eqn:Hs.
  - destruct (handle_sane_lookup _ _ Hs) as (_ & o & Ho & _).
    rewrite (toUnsignedByte_run w itm o Hs Ho), (toUnsignedInt_run w itm o Hs Ho)
      in Hrun.
    cbv zeta in Hrun. rewrite !alloc_run in Hrun.
    unfold dispatch_reads in Hrun.
    destruct (accepted_tag (typ o)), ((0 <=? ptr o) && (ptr o <=? 255)),
      (typ o =? Wy_Int), (typ o =? Wy_Char), (typ o =? Wy_Byte);
      destruct Hrun as [Hrun | Hrun]; try discriminate;
      injection Hrun as <- <-; do 2 eexists; split; reflexivity.
  - rewrite (toUnsignedByte_insane_run w itm Hs), (toUnsignedInt_insane_run w itm Hs)
      in Hrun.
    destruct Hrun as [Hrun | Hrun]; injection Hrun as <- <-;
      do 2 eexists; split; reflexivity.
Qed.
Lemma stderr_of_add_trace evs w :
  stderr_of (trace (add_trace evs w)) = stderr_of (trace w) ++ stderr_of evs.
Proof. unfold stderr_of; cbn. apply omap_app. Qed.

(** X5: on an object whose tag is not accepted, both conversions write
    one and the same diagnostic to [stderr]: the format
    "Help needed in wycc__toUnsignedByte for type %d" with the tag of
    the object as its argument; [wycc__toUnsignedInt] too names
    [wycc__toUnsignedByte] there. *)
Theorem unsupported_type_diagnostic (w : world) (itm : Z) (o : wycc_obj) :
  handle_sane w itm = true ->
  heap w !! itm = Some o ->
  accepted_tag (typ o) = false ->
  stderr_of (trace (snd (ToUnsignedByte.wycc__toUnsignedByte itm w))) =
    stderr_of (trace w) ++
      [Fprintf ("Help needed in wycc__toUnsignedByte for type %d" ++ LF)%string
         [typ o]] /\
  stderr_of (trace (snd (ToUnsignedInt.wycc__toUnsignedInt itm w))) =
    stderr_of (trace w) ++
      [Fprintf ("Help needed in wycc__toUnsignedByte for type %d" ++ LF)%string
         [typ o]].
Proof.
  intros Hs Ho Ht.
  rewrite (toUnsignedByte_run w itm o Hs Ho), (toUnsignedInt_run w itm o Hs Ho).
  cbv zeta; rewrite Ht; cbn [snd]. rewrite !stderr_of_add_trace.
  unfold dispatch_reads.
  destruct (typ o =? Wy_Int), (typ o =? Wy_Char), (typ o =? Wy_Byte);
    split; reflexivity.
Qed.

(** X6: when the payload is out of range, below 0 or above 255 alike,
    [wycc__toUnsignedByte] writes the one diagnostic
    "precondition not satisfied" to [stderr], and allocates nothing. *)
Theorem range_violation_diagnostic (w : world) (itm : Z) (o : wycc_obj) :
  handle_sane w itm = true ->
  heap w !! itm = Some o ->
  accepted_tag (typ o) = true ->
  ptr o < 0 \/ 255 < ptr o ->
  stderr_of (trace (snd (ToUnsignedByte.wycc__toUnsignedByte itm w))) =
    stderr_of (trace w) ++
      [Fprintf ("precondition not satisfied" ++ LF)%string []] /\
  heap (snd (ToUnsignedByte.wycc__toUnsignedByte itm w)) = heap w.
Proof.
  intros Hs Ho Ht Hr.
  rewrite (toUnsignedByte_run w itm o Hs Ho).
  cbv zeta; rewrite Ht.
  destruct ((0 <=? ptr o) && (ptr o <=? 255)) eqn:Hin.
  { apply in_byte_range in Hin. lia. }
  cbn [snd]. rewrite stderr_of_add_trace. split; [| reflexivity].
  unfold dispatch_reads.
  destruct (typ o =? Wy_Int), (typ o =? Wy_Char), (typ o =? Wy_Byte);
    reflexivity.
Qed.

(** X7: which of the three accepted tags the argument carries makes no
    difference: on two objects of accepted tags and equal payloads,
    each conversion has the same outcome and leaves the same heap. *)
Theorem conversions_ignore_accepted_tag
    (w : world) (itm1 itm2 : Z) (o1 o2 : wycc_obj) :
  handle_sane w itm1 = true -> heap w !! itm1 = Some o1 ->
  handle_sane w itm2 = true -> heap w !! itm2 = Some o2 ->
  accepted_tag (typ o1) = true -> accepted_tag (typ o2) = true ->
  ptr o1 = ptr o2 ->
  (fst (ToUnsignedByte.wycc__toUnsignedByte itm1 w) =
     fst (ToUnsignedByte.wycc__toUnsignedByte itm2 w) /\
   heap (snd (ToUnsignedByte.wycc__toUnsignedByte itm1 w)) =
     heap (snd (ToUnsignedByte.wycc__toUnsignedByte itm2 w))) /\
  (fst (ToUnsignedInt.wycc__toUnsignedInt itm1 w) =
     fst (ToUnsignedInt.wycc__toUnsignedInt itm2 w) /\
   heap (snd (ToUnsignedInt.wycc__toUnsignedInt itm1 w)) =
     heap (snd (ToUnsignedInt.wycc__toUnsignedInt itm2 w))).
Proof.
  intros Hs1 Ho1 Hs2 Ho2 Ht1 Ht2 Hp.
  rewrite (toUnsignedByte_run w itm1 o1 Hs1 Ho1),
    (toUnsignedByte_run w itm2 o2 Hs2 Ho2),
    (toUnsignedInt_run w itm1 o1 Hs1 Ho1),
    (toUnsignedInt_run w itm2 o2 Hs2 Ho2).
  cbv zeta; rewrite Ht1, Ht2, Hp, !alloc_run.
  destruct ((0 <=? ptr o2) && (ptr o2 <=? 255)); repeat split.
Qed.

(** An object made by a conversion can be passed to a conversion. *)
Lemma new_object_sane evs w h o' :
  h <> 0 -> wycc_obj_consistent o' = true ->
  handle_sane (add_trace evs (set_heap (<[h := o']> (heap w)) w)) h = true /\
  heap (add_trace evs (set_heap (<[h := o']> (heap w)) w)) !! h = Some o'.
Proof.
  intros Hnz Hc.
  assert (heap (add_trace evs (set_heap (<[h := o']> (heap w)) w)) !! h = Some o')
    as Hl by (cbn; apply lookup_insert_eq).
  split; [| exact Hl]. by apply (handle_sane_intro _ _ o').
Qed.

Lemma accepted_tag_Wy_Byte : accepted_tag Wy_Byte = true.
Proof. unfold accepted_tag. rewrite Z.eqb_refl. apply orb_true_r. Qed.

Lemma accepted_tag_Wy_Int : accepted_tag Wy_Int = true.
Proof. unfold accepted_tag. by rewrite Z.eqb_refl. Qed.

(** X8: the result of [wycc__toUnsignedByte] can be converted back:
    [wycc__toUnsignedInt] applied to it returns a third handle, to a
    [Wy_Int] object of the payload of the first argument, and both
    earlier objects are still in place. *)
Theorem toUnsignedInt_after_toUnsignedByte
    (w : world) (itm : Z) (o : wycc_obj) (h : Z) (w' : world) :
  heap w !! itm = Some o ->
  ToUnsignedByte.wycc__toUnsignedByte itm w = (Returned h, w') ->
  wycc_obj_consistent {| typ := Wy_Byte; ptr := ptr o |} = true ->
  exists h' w'',
    ToUnsignedInt.wycc__toUnsignedInt h w' = (Returned h', w'') /\
    heap w'' !! h' = Some {| typ := Wy_Int; ptr := ptr o |} /\
    heap w'' !! h = Some {| typ := Wy_Byte; ptr := ptr o |} /\
    heap w'' !! itm = Some o /\
    h' <> h /\ h' <> itm /\ h <> itm.
Proof.
  intros Ho (o0 & evs & _ & Ho0 & _ & _ & Hh & -> & _)%toUnsignedByte_returned Hc.
  assert (o0 = o) as -> by congruence.
  destruct (alloc_fresh (heap w)) as [Hnz Hfree]. rewrite <- Hh in Hnz, Hfree.
  assert (h <> itm) as Hne by (intros ->; congruence).
  destruct (new_object_sane evs w h _ Hnz Hc) as [Hs' Ho'].
  set (w' := add_trace evs _) in *.
  rewrite (toUnsignedInt_run w' h _ Hs' Ho'); cbv zeta.
  cbn [typ ptr]. rewrite accepted_tag_Wy_Byte, alloc_run.
  destruct (alloc_fresh (heap w')) as [_ Hfree'].
  set (h' := fresh ({[0]} ∪ dom (heap w'))) in *.
  assert (heap w' !! itm = Some o) as Hitm
    by (subst w'; cbn; by rewrite lookup_insert_ne).
  assert (h' <> h) as Hne1 by (intros Heq; rewrite Heq in Hfree'; congruence).
  assert (h' <> itm) as Hne2 by (intros Heq; rewrite Heq in Hfree'; congruence).
  do 2 eexists. split; [reflexivity |]. cbn [heap add_trace set_heap].
  split; [apply lookup_insert_eq |].
  split; [by rewrite lookup_insert_ne |].
  split; [by rewrite lookup_insert_ne |]. done.
Qed.

(** X9: [wycc__toUnsignedByte] accepts its own results: applied to a
    handle that it returned, it returns again, a [Wy_Byte] object of
    the same payload. *)
Theorem toUnsignedByte_after_toUnsignedByte
    (w : world) (itm : Z) (o : wycc_obj) (h : Z) (w' : world) :
  heap w !! itm = Some o ->
  ToUnsignedByte.wycc__toUnsignedByte itm w = (Returned h, w') ->
  wycc_obj_consistent {| typ := Wy_Byte; ptr := ptr o |} = true ->
  exists h' w'',
    ToUnsignedByte.wycc__toUnsignedByte h w' = (Returned h', w'') /\
    heap w'' !! h' = Some {| typ := Wy_Byte; ptr := ptr o |} /\
    h' <> h.
Proof.
  intros Ho (o0 & evs & _ & Ho0 & _ & Hr & Hh & -> & _)%toUnsignedByte_returned Hc.
  assert (o0 = o) as -> by congruence.
  destruct (alloc_fresh (heap w)) as [Hnz _]. rewrite <- Hh in Hnz.
  destruct (new_object_sane evs w h _ Hnz Hc) as [Hs' Ho'].
  set (w' := add_trace evs _) in *.
  rewrite (toUnsignedByte_run w' h _ Hs' Ho'); cbv zeta.
  cbn [typ ptr]. rewrite accepted_tag_Wy_Byte.
  apply in_byte_range in Hr. rewrite Hr, alloc_run.
  destruct (alloc_fresh (heap w')) as [_ Hfree'].
  set (h' := fresh ({[0]} ∪ dom (heap w'))) in *.
  do 2 eexists. split; [reflexivity |]. cbn [heap add_trace set_heap].
  split; [apply lookup_insert_eq |].
  intros Heq; rewrite Heq in Hfree'; congruence.
Qed.

(** X10: [wycc__toUnsignedByte] applied to a result of
    [wycc__toUnsignedInt] treats it like the first argument: it returns
    a [Wy_Byte] object of the same payload when the payload lies in
    0..255, and ends the process by [exit (-4)] otherwise. *)
Theorem toUnsignedByte_after_toUnsignedInt
    (w : world) (itm : Z) (o : wycc_obj) (h : Z) (w' : world) :
  heap w !! itm = Some o ->
  ToUnsignedInt.wycc__toUnsignedInt itm w = (Returned h, w') ->
  wycc_obj_consistent {| typ := Wy_Int; ptr := ptr o |} = true ->
  (0 <= ptr o <= 255 ->
   exists h' w'',
     ToUnsignedByte.wycc__toUnsignedByte h w' = (Returned h', w'') /\
     heap w'' !! h' = Some {| typ := Wy_Byte; ptr := ptr o |}) /\
  (~ (0 <= ptr o <= 255) ->
   fst (ToUnsignedByte.wycc__toUnsignedByte h w') = Terminated (Exit (-4))).
Proof.
  intros Ho (o0 & evs & _ & Ho0 & _ & Hh & -> & _)%toUnsignedInt_returned Hc.
  assert (o0 = o) as -> by congruence.
  destruct (alloc_fresh (heap w)) as [Hnz _]. rewrite <- Hh in Hnz.
  destruct (new_object_sane evs w h _ Hnz Hc) as [Hs' Ho'].
  set (w' := add_trace evs _) in *.
  rewrite (toUnsignedByte_run w' h _ Hs' Ho'); cbv zeta.
  cbn [typ ptr]. rewrite accepted_tag_Wy_Int.
  destruct ((0 <=? ptr o) && (ptr o <=? 255)) eqn:Hr.
  - apply in_byte_range in Hr. split; [| tauto]. intros _.
    rewrite alloc_run. do 2 eexists. split; [reflexivity |].
    cbn [heap add_trace set_heap]. apply lookup_insert_eq.
  - split; [| reflexivity]. intros Hin%in_byte_range. congruence.
Qed.
(** The heap after a run: as before, or with one new object. *)
Lemma toUnsignedByte_heap w itm :
  heap (snd (ToUnsignedByte.wycc__toUnsignedByte itm w)) = heap w \/
  exists p, 0 <= p <= 255 /\
    heap (snd (ToUnsignedByte.wycc__toUnsignedByte itm w)) =
      <[fresh ({[0]} ∪ dom (heap w)) := {| typ := Wy_Byte; ptr := p |}]> (heap w).
Proof.
  destruct (handle_sane w itm) eqn:Hs.
  - destruct (handle_sane_lookup _ _ Hs) as (_ & o & Ho & _).
    rewrite (toUnsignedByte_run w itm o Hs Ho); cbv zeta.
    destruct (accepted_tag (typ o)); [| by left].
    destruct ((0 <=? ptr o) && (ptr o <=? 255)) eqn:Hr; [| by left].
    right. exists (ptr o). split; [by apply in_byte_range |].
    by rewrite alloc_run.
  - rewrite (toUnsignedByte_insane_run w itm Hs). by left.
Qed.

Lemma toUnsignedInt_heap w itm :
  heap (snd (ToUnsignedInt.wycc__toUnsignedInt itm w)) = heap w \/
  exists p,
    heap (snd (ToUnsignedInt.wycc__toUnsignedInt itm w)) =
      <[fresh ({[0]} ∪ dom (heap w)) := {| typ := Wy_Int; ptr := p |}]> (heap w).
Proof.
  destruct (handle_sane w itm) eqn:Hs.
  - destruct (handle_sane_lookup _ _ Hs) as (_ & o & Ho & _).
    rewrite (toUnsignedInt_run w itm o Hs Ho); cbv zeta.
    destruct (accepted_tag (typ o)); [| by left].
    right. exists (ptr o). by rewrite alloc_run.
  - rewrite (toUnsignedInt_insane_run w itm Hs). by left.
Qed.

Lemma lookup_insert_fresh (m : gmap Z wycc_obj) o' h0 o0 :
  m !! h0 = Some o0 ->
  <[fresh ({[0]} ∪ dom m) := o']> m !! h0 = Some o0.
Proof.
  intros Hl. destruct (alloc_fresh m) as [_ Hfree].
  rewrite lookup_insert_ne; [exact Hl |]. intros Heq. congruence.
Qed.

(** X11: whatever a run of a conversion does, every object that was in
    the heap is still there, unchanged, and every handle that was sane
    is still sane. *)
Theorem conversions_keep_objects (w : world) (itm h0 : Z) (o0 : wycc_obj) :
  heap w !! h0 = Some o0 ->
  (heap (snd (ToUnsignedByte.wycc__toUnsignedByte itm w)) !! h0 = Some o0 /\
   handle_sane (snd (ToUnsignedByte.wycc__toUnsignedByte itm w)) h0 =
     handle_sane w h0) /\
  (heap (snd (ToUnsignedInt.wycc__toUnsignedInt itm w)) !! h0 = Some o0 /\
   handle_sane (snd (ToUnsignedInt.wycc__toUnsignedInt itm w)) h0 =
     handle_sane w h0).
Proof.
  intros Hl.
  assert (heap (snd (ToUnsignedByte.wycc__toUnsignedByte itm w)) !! h0 = Some o0)
    as Hb.
  { destruct (toUnsignedByte_heap w itm) as [-> | (p & _ & ->)];
      [exact Hl | by apply lookup_insert_fresh]. }
  assert (heap (snd (ToUnsignedInt.wycc__toUnsignedInt itm w)) !! h0 = Some o0)
    as Hi.
  { destruct (toUnsignedInt_heap w itm) as [-> | (p & ->)];
      [exact Hl | by apply lookup_insert_fresh]. }
  unfold handle_sane. rewrite Hb, Hi, Hl. done.
Qed.

(** X12: [wycc__toUnsignedByte] keeps the invariant of boxed bytes in
    every run; [wycc__toUnsignedInt] keeps it when the tags [Wy_Int]
    and [Wy_Byte] are different numbers. *)
Theorem conversions_keep_byte_invariant (w : world) (itm : Z) :
  byte_invariant w ->
  byte_invariant (snd (ToUnsignedByte.wycc__toUnsignedByte itm w)) /\
  (Wy_Int <> Wy_Byte ->
   byte_invariant (snd (ToUnsignedInt.wycc__toUnsignedInt itm w))).
Proof.
  intros Hinv. split.
  - destruct (toUnsignedByte_heap w itm) as [Heq | (p & Hp & Heq)];
      intros h o; rewrite Heq; [apply Hinv |].
    destruct (decide (fresh ({[0]} ∪ dom (heap w)) = h)) as [<- | Hne].
    + rewrite lookup_insert_eq. by intros [= <-] _.
    + rewrite lookup_insert_ne by done. apply Hinv.
  - intros Hdiff.
    destruct (toUnsignedInt_heap w itm) as [Heq | (p & Heq)];
      intros h o; rewrite Heq; [apply Hinv |].
    destruct (decide (fresh ({[0]} ∪ dom (heap w)) = h)) as [<- | Hne].
    + rewrite lookup_insert_eq. intros [= <-] Ht. by destruct Hdiff.
    + rewrite lookup_insert_ne by done. apply Hinv.
Qed.
End ConversionProperties.

(** ** Further properties of the constructors and of the callbacks *)
Section StartupProperties.

Lemma link_initor_record c b d w :
  static_initor (snd (link_initor c b d w)) c =
    {| nxt := wycc_init_chain w; functionr := Some b; functionq := Some d |}.
Proof.
  rewrite link_initor_run; unfold static_initor; cbn.
  by rewrite lookup_insert_eq.
Qed.

Lemma link_initor_frame c b d w :
  heap (snd (link_initor c b d w)) = heap w /\
  registry (snd (link_initor c b d w)) = registry w /\
  trace (snd (link_initor c b d w)) = trace w.
Proof. by rewrite link_initor_run. Qed.

(** X13: the constructor [__initor_a] of either translation unit
    returns; it stores in the unit's own record the old head of the
    chain and the unit's own callbacks [__initor_b] and [__initor_d],
    makes that record the head, and leaves every other record, the
    heap, the registry and [stderr] as they were: nothing is registered
    by the constructor itself. *)
Theorem initor_a_postcondition (w : world) :
  (exists w',
     ToUnsignedByte.__initor_a w = (Returned tt, w') /\
     wycc_init_chain w' = Some ToUnsignedByte.__initor_c /\
     static_initor w' ToUnsignedByte.__initor_c =
       {| nxt := wycc_init_chain w;
          functionr := Some Fn_toUnsignedByte__initor_b;
          functionq := Some Fn_toUnsignedByte__initor_d |} /\
     (forall c, c <> ToUnsignedByte.__initor_c ->
                static_initor w' c = static_initor w c) /\
     heap w' = heap w /\ registry w' = registry w /\ trace w' = trace w) /\
  (exists w',
     ToUnsignedInt.__initor_a w = (Returned tt, w') /\
     wycc_init_chain w' = Some ToUnsignedInt.__initor_c /\
     static_initor w' ToUnsignedInt.__initor_c =
       {| nxt := wycc_init_chain w;
          functionr := Some Fn_toUnsignedInt__initor_b;
          functionq := Some Fn_toUnsignedInt__initor_d |} /\
     (forall c, c <> ToUnsignedInt.__initor_c ->
                static_initor w' c = static_initor w c) /\
     heap w' = heap w /\ registry w' = registry w /\ trace w' = trace w).
Proof.
  rewrite ToUnsignedByte_initor_a_links, ToUnsignedInt_initor_a_links.
  split; (eexists; split; [apply link_initor_returns |]);
    (split; [apply link_initor_head |]);
    (split; [apply link_initor_record |]);
    (split; [intros c Hc; by apply link_initor_other |]);
    apply link_initor_frame.
Qed.

(** X14: the register-callbacks [__initor_b] of the two translation
    units can run in either order and any number of times with the same
    result, and each of them leaves the entries under every other
    (name, signature) as they were. *)
Theorem register_callbacks_commute (w : world) :
  (ToUnsignedByte.__initor_b ;; ToUnsignedInt.__initor_b) w =
    (ToUnsignedInt.__initor_b ;; ToUnsignedByte.__initor_b) w /\
  (ToUnsignedByte.__initor_b ;; ToUnsignedByte.__initor_b) w =
    ToUnsignedByte.__initor_b w /\
  (ToUnsignedInt.__initor_b ;; ToUnsignedInt.__initor_b) w =
    ToUnsignedInt.__initor_b w /\
  (forall name sig,
     (name, sig) <> ("toUnsignedByte", "[^d,v,i]") ->
     wycc_lookup_routine name sig (snd (ToUnsignedByte.__initor_b w)) =
       wycc_lookup_routine name sig w) /\
  (forall name sig,
     (name, sig) <> ("toUnsignedInt", "[^i,v,d]") ->
     wycc_lookup_routine name sig (snd (ToUnsignedInt.__initor_b w)) =
       wycc_lookup_routine name sig w).
Proof.
  unfold ToUnsignedByte.__initor_b, ToUnsignedInt.__initor_b, bind,
    wycc_register_routine, ret, wycc_lookup_routine, set_registry; cbn.
  split; [| split; [| split; [| split]]].
  - by rewrite insert_insert_ne.
  - by rewrite insert_insert_eq.
  - by rewrite insert_insert_eq.
  - intros name sig Hne. by rewrite lookup_insert_ne.
  - intros name sig Hne. by rewrite lookup_insert_ne.
Qed.
Lemma static_initor_callback r e w c :
  static_initor (set_registry r (log e w)) c = static_initor w c.
Proof. reflexivity. Qed.

(** The query pass over a chain of two records. *)
Lemma query_pass_two w c1 d1 c2 d2 :
  wycc_init_chain w = Some c2 ->
  functionq (static_initor w c2) = Some d2 ->
  nxt (static_initor w c2) = Some c1 ->
  functionq (static_initor w c1) = Some d1 ->
  nxt (static_initor w c1) = None ->
  run_query_pass 2 w =
    (Returned tt,
     add_trace [EvQueryCallback c2 d2; EvQueryCallback c1 d1]
       (set_registry (init_fn_effect d1 (init_fn_effect d2 (registry w))) w)).
Proof.
  intros Hhead Hq2 Hn2 Hq1 Hn1.
  unfold run_query_pass, bind, load_init_chain. rewrite Hhead.
  cbn [walk_query]. unfold bind, load_functionq, load_nxt, emit.
  rewrite Hq2, call_init_fn_run, !static_initor_callback.
  rewrite Hn2, !static_initor_callback, Hq1, call_init_fn_run.
  rewrite !static_initor_callback.
  rewrite Hn1. unfold ret, add_trace, set_registry, log; cbn.
  by rewrite <- (assoc_L (++)).
Qed.

(** The start of a process made of two translation units: constructors,
    register pass, query pass. *)
Lemma startup_two w c1 b1 d1 c2 b2 d2 :
  wycc_init_chain w = None ->
  c2 <> c1 ->
  (link_initor c1 b1 d1 ;; link_initor c2 b2 d2 ;;
   run_register_pass 2 ;; run_query_pass 2) w =
    (Returned tt,
     add_trace [EvRegisterCallback c2 b2; EvRegisterCallback c1 b1;
                EvQueryCallback c2 d2; EvQueryCallback c1 d1]
       (set_registry
          (init_fn_effect d1 (init_fn_effect d2
             (init_fn_effect b1 (init_fn_effect b2 (registry w)))))
          (snd (link_initor c2 b2 d2 (snd (link_initor c1 b1 d1 w)))))).
Proof.
  intros Hempty Hne.
  pose proof (chain_records_link 0 w [] c1 b1 d1 (chain_records_empty w Hempty))
    as Hw1.
  specialize (Hw1 ltac:(cbn; apply not_elem_of_nil)).
  pose proof (chain_records_link 1 _ _ c2 b2 d2 Hw1) as Hw2.
  specialize (Hw2 ltac:(cbn; apply not_elem_of_cons; split;
                        [exact Hne | apply not_elem_of_nil])).
  rewrite (bind_returned _ _ _ _ _ (link_initor_returns c1 b1 d1 w)).
  rewrite (bind_returned _ _ _ _ _ (link_initor_returns c2 b2 d2 _)).
  set (w2 := snd (link_initor c2 b2 d2 (snd (link_initor c1 b1 d1 w)))) in *.
  assert (run_register_pass 2 w2 =
            (Returned tt,
             add_trace [EvRegisterCallback c2 b2; EvRegisterCallback c1 b1]
               (set_registry
                  (init_fn_effect b1 (init_fn_effect b2 (registry w2))) w2)))
    as Hreg by exact (walk_register_run 2 _ w2 _ Hw2).
  rewrite (bind_returned _ _ _ _ _ Hreg).
  assert (registry w2 = registry w) as Hr2.
  { subst w2. by rewrite !(proj1 (proj2 (link_initor_frame _ _ _ _))). }
  rewrite (query_pass_two _ c1 d1 c2 d2).
  - rewrite Hr2. unfold add_trace, set_registry; cbn.
    by rewrite <- (assoc_L (++)).
  - apply link_initor_head.
  - change (functionq (static_initor w2 c2) = Some d2).
    subst w2. by rewrite link_initor_record.
  - change (nxt (static_initor w2 c2) = Some c1).
    subst w2. rewrite link_initor_record. apply link_initor_head.
  - change (functionq (static_initor w2 c1) = Some d1).
    subst w2. rewrite link_initor_other by congruence.
    by rewrite link_initor_record.
  - change (nxt (static_initor w2 c1) = None).
    subst w2. rewrite link_initor_other by congruence.
    by rewrite link_initor_record.
Qed.

(** X15: in a process that starts with an empty chain, the whole
    startup (the two constructors in either order, then the register
    pass, then the query pass) returns; the query pass invokes the
    [__initor_d] of each unit once, most recently linked first, and
    changes nothing; and the registry in the end is the same for both
    orders of the constructors: the old one with the two routines
    entered. *)
Theorem startup_independent_of_link_order (w : world) :
  wycc_init_chain w = None ->
  exists w1 w2,
    (ToUnsignedByte.__initor_a ;; ToUnsignedInt.__initor_a ;;
     run_register_pass 2 ;; run_query_pass 2) w = (Returned tt, w1) /\
    (ToUnsignedInt.__initor_a ;; ToUnsignedByte.__initor_a ;;
     run_register_pass 2 ;; run_query_pass 2) w = (Returned tt, w2) /\
    registry w1 = registry w2 /\
    registry w1 =
      <[("toUnsignedByte", "[^d,v,i]") := Fn_wycc__toUnsignedByte]>
        (<[("toUnsignedInt", "[^i,v,d]") := Fn_wycc__toUnsignedInt]> (registry w)) /\
    heap w1 = heap w /\ heap w2 = heap w /\
    query_invocations (trace w1) =
      query_invocations (trace w) ++
        [(ToUnsignedInt.__initor_c, Fn_toUnsignedInt__initor_d);
         (ToUnsignedByte.__initor_c, Fn_toUnsignedByte__initor_d)] /\
    query_invocations (trace w2) =
      query_invocations (trace w) ++
        [(ToUnsignedByte.__initor_c, Fn_toUnsignedByte__initor_d);
         (ToUnsignedInt.__initor_c, Fn_toUnsignedInt__initor_d)].
Proof.
  intros Hempty.
  rewrite ToUnsignedByte_initor_a_links, ToUnsignedInt_initor_a_links.
  do 2 eexists.
  split; [apply (startup_two w); [exact Hempty | discriminate] |].
  split; [apply (startup_two w); [exact Hempty | discriminate] |].
  cbn [registry add_trace set_registry heap trace init_fn_effect].
  rewrite !link_initor_run; cbn [snd heap trace set_init_chain set_initors].
  split; [by rewrite insert_insert_ne |].
  split; [reflexivity |]. split; [reflexivity |]. split; [reflexivity |].
  unfold query_invocations. rewrite !omap_app. by split.
Qed.
(** The walk over a record whose [nxt] points to the record itself
    never ends. *)
Lemma walk_register_self_loop c b fuel : forall w,
  functionr (static_initor w c) = Some b ->
  nxt (static_initor w c) = Some c ->
  fst (walk_register fuel (Some c) w) = OutOfFuel.
Proof.
  induction fuel as [| fuel IH]; intros w Hf Hn; [reflexivity |].
  cbn [walk_register]. unfold bind, load_functionr, load_nxt, emit.
  rewrite Hf, call_init_fn_run, !static_initor_callback, Hn.
  specialize (IH (set_registry
                    (init_fn_effect b (registry (log (EvRegisterCallback c b) w)))
                    (log (EvRegisterCallback c b) w))).
  rewrite !static_initor_callback in IH. specialize (IH Hf Hn).
  destruct (walk_register fuel (Some c) _) as [[] ?]; cbn in IH |- *;
    congruence.
Qed.

Lemma relink_self_loop c b d w fuel :
  exists w',
    (link_initor c b d ;; link_initor c b d) w = (Returned tt, w') /\
    chain_records fuel w' = None /\
    fst (run_register_pass fuel w') = OutOfFuel.
Proof.
  eexists. split.
  { rewrite (bind_returned _ _ _ _ _ (link_initor_returns c b d w)).
    apply link_initor_returns. }
  set (w1 := snd (link_initor c b d w)).
  assert (static_initor (snd (link_initor c b d w1)) c =
            {| nxt := Some c; functionr := Some b; functionq := Some d |}) as Hrec.
  { rewrite link_initor_record. subst w1. by rewrite link_initor_head. }
  split.
  - unfold chain_records. rewrite link_initor_head.
    unfold static_initor in Hrec. clear -Hrec.
    induction fuel as [| n IH]; [reflexivity |].
    cbn [chain_from]. rewrite Hrec; cbn [functionr nxt]. by rewrite IH.
  - unfold run_register_pass, bind, load_init_chain.
    rewrite link_initor_head.
    apply (walk_register_self_loop c b); by rewrite Hrec.
Qed.

(** X16: a constructor [__initor_a] that runs a second time closes the
    chain on itself: its record's [nxt] then points to the record, the
    chain has no end, and the register pass of the startup driver does
    not return, whatever fuel it is given. *)
Theorem initor_a_twice_loops (w : world) (fuel : nat) :
  (exists w',
     (ToUnsignedByte.__initor_a ;; ToUnsignedByte.__initor_a) w = (Returned tt, w') /\
     chain_records fuel w' = None /\
     fst (run_register_pass fuel w') = OutOfFuel) /\
  (exists w',
     (ToUnsignedInt.__initor_a ;; ToUnsignedInt.__initor_a) w = (Returned tt, w') /\
     chain_records fuel w' = None /\
     fst (run_register_pass fuel w') = OutOfFuel).
Proof.
  rewrite ToUnsignedByte_initor_a_links, ToUnsignedInt_initor_a_links.
  split; apply relink_self_loop.
Qed.
End StartupProperties.

(** ** The further properties applied to the sample data *)

Lemma toUnsignedByte_returns_only_if_witness :
  ToUnsignedByte.wycc__toUnsignedByte (Hdr := sample_header) 16 sample_int_42 =
    (Returned 17,
     snd (ToUnsignedByte.wycc__toUnsignedByte (Hdr := sample_header) 16
            sample_int_42)) /\
  exists o,
    16 <> 0 /\ heap sample_int_42 !! 16 = Some o /\
    wycc_obj_consistent (wycc_lib_h := sample_header) o = true /\
    (typ o = 2 \/ typ o = 3 \/ typ o = 4) /\
    0 <= ptr o <= 255 /\
    heap (snd (ToUnsignedByte.wycc__toUnsignedByte (Hdr := sample_header) 16
                 sample_int_42)) !! 17 = Some {| typ := 4; ptr := ptr o |}.
Proof.
  assert (ToUnsignedByte.wycc__toUnsignedByte (Hdr := sample_header) 16 sample_int_42 =
            (Returned 17,
             snd (ToUnsignedByte.wycc__toUnsignedByte (Hdr := sample_header) 16
                    sample_int_42))) as Hrun
    by (vm_compute; reflexivity).
  split; [exact Hrun |].
  exact (toUnsignedByte_returns_only_if (Hdr := sample_header) _ _ _ _ Hrun).
Defined.

Lemma toUnsignedInt_returns_only_if_witness :
  ToUnsignedInt.wycc__toUnsignedInt (Hdr := sample_header) 16 sample_int_neg5 =
    (Returned 17,
     snd (ToUnsignedInt.wycc__toUnsignedInt (Hdr := sample_header) 16
            sample_int_neg5)) /\
  exists o,
    16 <> 0 /\ heap sample_int_neg5 !! 16 = Some o /\
    wycc_obj_consistent (wycc_lib_h := sample_header) o = true /\
    (typ o = 2 \/ typ o = 3 \/ typ o = 4) /\
    heap (snd (ToUnsignedInt.wycc__toUnsignedInt (Hdr := sample_header) 16
                 sample_int_neg5)) !! 17 = Some {| typ := 2; ptr := ptr o |}.
Proof.
  assert (ToUnsignedInt.wycc__toUnsignedInt (Hdr := sample_header) 16 sample_int_neg5 =
            (Returned 17,
             snd (ToUnsignedInt.wycc__toUnsignedInt (Hdr := sample_header) 16
                    sample_int_neg5))) as Hrun
    by (vm_compute; reflexivity).
  split; [exact Hrun |].
  exact (toUnsignedInt_returns_only_if (Hdr := sample_header) _ _ _ _ Hrun).
Defined.

Lemma conversions_fail_without_effect_witness :
  ToUnsignedByte.wycc__toUnsignedByte (Hdr := sample_header) 16 sample_int_300 =
    (Terminated (Exit (-4)),
     snd (ToUnsignedByte.wycc__toUnsignedByte (Hdr := sample_header) 16
            sample_int_300)) /\
  exists evs d,
    snd (ToUnsignedByte.wycc__toUnsignedByte (Hdr := sample_header) 16
           sample_int_300) = add_trace evs sample_int_300 /\
    stderr_of evs = [d].
Proof.
  assert (ToUnsignedByte.wycc__toUnsignedByte (Hdr := sample_header) 16 sample_int_300 =
            (Terminated (Exit (-4)),
             snd (ToUnsignedByte.wycc__toUnsignedByte (Hdr := sample_header) 16
                    sample_int_300))) as Hrun
    by (vm_compute; reflexivity).
  split; [exact Hrun |].
  exact (conversions_fail_without_effect (Hdr := sample_header) _ _ _ _
           (or_introl Hrun)).
Defined.

Lemma unsupported_type_diagnostic_witness :
  handle_sane (Hdr := sample_header) sample_other_tag 16 = true /\
  accepted_tag (Hdr := sample_header) 7 = false /\
  stderr_of (trace (snd (ToUnsignedInt.wycc__toUnsignedInt (Hdr := sample_header) 16
                           sample_other_tag))) =
    stderr_of (trace sample_other_tag) ++
      [Fprintf ("Help needed in wycc__toUnsignedByte for type %d" ++ LF)%string [7]].
Proof.
  split; [vm_compute; reflexivity |]. split; [vm_compute; reflexivity |].
  apply (proj2 (unsupported_type_diagnostic (Hdr := sample_header)
                  sample_other_tag 16 {| typ := 7; ptr := 1 |}
                  ltac:(vm_compute; reflexivity) ltac:(vm_compute; reflexivity)
                  ltac:(vm_compute; reflexivity))).
Defined.

Lemma range_violation_diagnostic_witness :
  handle_sane (Hdr := sample_header) sample_int_300 16 = true /\
  (300 < 0 \/ 255 < 300) /\
  stderr_of (trace (snd (ToUnsignedByte.wycc__toUnsignedByte (Hdr := sample_header)
                           16 sample_int_300))) =
    stderr_of (trace sample_int_300) ++
      [Fprintf ("precondition not satisfied" ++ LF)%string []] /\
  heap (snd (ToUnsignedByte.wycc__toUnsignedByte (Hdr := sample_header) 16
               sample_int_300)) = heap sample_int_300.
Proof.
  split; [vm_compute; reflexivity |]. split; [right; lia |].
  apply (range_violation_diagnostic (Hdr := sample_header)
           sample_int_300 16 {| typ := 2; ptr := 300 |}).
  - vm_compute; reflexivity.
  - vm_compute; reflexivity.
  - vm_compute; reflexivity.
  - right; cbn; lia.
Defined.

Lemma conversions_ignore_accepted_tag_witness :
  heap sample_int_char_42 !! 16 = Some {| typ := 2; ptr := 42 |} /\
  heap sample_int_char_42 !! 20 = Some {| typ := 3; ptr := 42 |} /\
  fst (ToUnsignedByte.wycc__toUnsignedByte (Hdr := sample_header) 16
         sample_int_char_42) =
    fst (ToUnsignedByte.wycc__toUnsignedByte (Hdr := sample_header) 20
           sample_int_char_42).
Proof.
  split; [vm_compute; reflexivity |]. split; [vm_compute; reflexivity |].
  apply (conversions_ignore_accepted_tag (Hdr := sample_header)
           sample_int_char_42 16 20
           {| typ := 2; ptr := 42 |} {| typ := 3; ptr := 42 |});
    vm_compute; reflexivity.
Defined.

Lemma toUnsignedInt_after_toUnsignedByte_witness :
  wycc_obj_consistent (wycc_lib_h := sample_header) {| typ := 4; ptr := 42 |} = true /\
  exists h' w'',
    ToUnsignedInt.wycc__toUnsignedInt (Hdr := sample_header) 17
      (snd (ToUnsignedByte.wycc__toUnsignedByte (Hdr := sample_header) 16
              sample_int_42)) = (Returned h', w'') /\
    heap w'' !! h' = Some {| typ := 2; ptr := 42 |}.
Proof.
  split; [reflexivity |].
  destruct (toUnsignedInt_after_toUnsignedByte (Hdr := sample_header)
              sample_int_42 16 {| typ := 2; ptr := 42 |} 17
              (snd (ToUnsignedByte.wycc__toUnsignedByte (Hdr := sample_header) 16
                      sample_int_42))
              ltac:(vm_compute; reflexivity) ltac:(vm_compute; reflexivity)
              ltac:(reflexivity))
    as (h' & w'' & Hrun & Hnew & _).
  exists h', w''. split; [exact Hrun | exact Hnew].
Defined.

Lemma toUnsignedByte_after_toUnsignedByte_witness :
  wycc_obj_consistent (wycc_lib_h := sample_header) {| typ := 4; ptr := 42 |} = true /\
  exists h' w'',
    ToUnsignedByte.wycc__toUnsignedByte (Hdr := sample_header) 17
      (snd (ToUnsignedByte.wycc__toUnsignedByte (Hdr := sample_header) 16
              sample_int_42)) = (Returned h', w'') /\
    heap w'' !! h' = Some {| typ := 4; ptr := 42 |} /\
    h' <> 17.
Proof.
  split; [reflexivity |].
  exact (toUnsignedByte_after_toUnsignedByte (Hdr := sample_header)
           sample_int_42 16 {| typ := 2; ptr := 42 |} 17
           (snd (ToUnsignedByte.wycc__toUnsignedByte (Hdr := sample_header) 16
                   sample_int_42))
           ltac:(vm_compute; reflexivity) ltac:(vm_compute; reflexivity)
           ltac:(reflexivity)).
Defined.

Lemma toUnsignedByte_after_toUnsignedInt_witness :
  wycc_obj_consistent (wycc_lib_h := sample_header) {| typ := 2; ptr := 300 |} = true /\
  ~ (0 <= 300 <= 255) /\
  fst (ToUnsignedByte.wycc__toUnsignedByte (Hdr := sample_header) 17
         (snd (ToUnsignedInt.wycc__toUnsignedInt (Hdr := sample_header) 16
                 sample_int_300))) = Terminated (Exit (-4)).
Proof.
  split; [reflexivity |]. split; [lia |].
  apply (proj2 (toUnsignedByte_after_toUnsignedInt (Hdr := sample_header)
                  sample_int_300 16 {| typ := 2; ptr := 300 |} 17
                  (snd (ToUnsignedInt.wycc__toUnsignedInt (Hdr := sample_header) 16
                          sample_int_300))
                  ltac:(vm_compute; reflexivity) ltac:(vm_compute; reflexivity)
                  ltac:(reflexivity))).
  cbn; lia.
Defined.

Lemma conversions_keep_objects_witness :
  heap sample_int_char_42 !! 20 = Some {| typ := 3; ptr := 42 |} /\
  heap (snd (ToUnsignedByte.wycc__toUnsignedByte (Hdr := sample_header) 16
               sample_int_char_42)) !! 20 = Some {| typ := 3; ptr := 42 |}.
Proof.
  split; [vm_compute; reflexivity |].
  apply (conversions_keep_objects (Hdr := sample_header) sample_int_char_42 16 20).
  vm_compute; reflexivity.
Defined.

Lemma conversions_keep_byte_invariant_witness :
  byte_invariant (Hdr := sample_header) sample_int_42 /\
  byte_invariant (Hdr := sample_header)
    (snd (ToUnsignedByte.wycc__toUnsignedByte (Hdr := sample_header) 16
            sample_int_42)) /\
  byte_invariant (Hdr := sample_header)
    (snd (ToUnsignedInt.wycc__toUnsignedInt (Hdr := sample_header) 16
            sample_int_42)).
Proof.
  assert (byte_invariant (Hdr := sample_header) sample_int_42) as Hinv.
  { intros h o Hl _.
    change (({[ 16 := {| typ := 2; ptr := 42 |} ]} : gmap Z wycc_obj) !! h = Some o)
      in Hl.
    apply lookup_singleton_Some in Hl as [_ <-]. cbn; lia. }
  split; [exact Hinv |].
  destruct (conversions_keep_byte_invariant (Hdr := sample_header)
              sample_int_42 16 Hinv) as [Hb Hi].
  split; [exact Hb |]. apply Hi. discriminate.
Defined.

Lemma register_callbacks_commute_witness :
  ("toUnsignedInt", "[^i,v,d]") <> ("toUnsignedByte", "[^d,v,i]") /\
  wycc_lookup_routine "toUnsignedInt" "[^i,v,d]"
    (snd (ToUnsignedByte.__initor_b empty_world)) =
    wycc_lookup_routine "toUnsignedInt" "[^i,v,d]" empty_world.
Proof.
  split; [discriminate |].
  apply (proj1 (proj2 (proj2 (proj2 (register_callbacks_commute empty_world))))).
  discriminate.
Defined.

Lemma startup_independent_of_link_order_witness :
  wycc_init_chain empty_world = None /\
  exists w1 w2,
    (ToUnsignedByte.__initor_a ;; ToUnsignedInt.__initor_a ;;
     run_register_pass 2 ;; run_query_pass 2) empty_world = (Returned tt, w1) /\
    (ToUnsignedInt.__initor_a ;; ToUnsignedByte.__initor_a ;;
     run_register_pass 2 ;; run_query_pass 2) empty_world = (Returned tt, w2) /\
    registry w1 = registry w2.
Proof.
  split; [reflexivity |].
  destruct (startup_independent_of_link_order empty_world eq_refl)
    as (w1 & w2 & H1 & H2 & Hreg & _).
  exists w1, w2. split; [exact H1 |]. split; [exact H2 | exact Hreg].
Defined.
